(** * tgbf: the plugin base class [TGBFPlugin] (src/tgbf/plugin.py)

    A shallow embedding of the parts of [TGBFPlugin] that deal with
    configuration, resources, storage and the authorization decorators,
    together with the properties the specification states about them.

    Python objects that come out of JSON documents are values of type
    [value]; a method that can raise is a computation in the monad [M],
    which threads the file tree and the trace of observable effects and
    returns either a result or the exception that escaped. *)

From Stdlib Require Import Ascii String ZArith DecimalString.
From stdpp Require Import base gmap strings list sorting.

Open Scope string_scope.
Open Scope list_scope.

(** ** Strings

    Python [str] is modelled by byte strings; case conversion acts on the
    ASCII letters, which is what [str.lower] does on ASCII text. *)

Definition is_upper (a : ascii) : bool :=
  let n := nat_of_ascii a in (65 <=? n)%nat && (n <=? 90)%nat.

Definition lower_ascii (a : ascii) : ascii :=
  if is_upper a then ascii_of_nat (nat_of_ascii a + 32) else a.

(** [s.lower()] *)
Fixpoint lower (s : string) : string :=
  match s with
  | EmptyString => EmptyString
  | String a s' => String (lower_ascii a) (lower s')
  end.

(** No upper-case letter occurs in [s]. *)
Fixpoint no_upper (s : string) : bool :=
  match s with
  | EmptyString => true
  | String a s' => negb (is_upper a) && no_upper s'
  end.

(** [s.startswith(p)] *)
Definition startswith (s p : string) : bool := String.prefix p s.

(** [s.endswith(p)] *)
Definition endswith (s p : string) : bool :=
  let n := String.length s in
  let k := String.length p in
  (k <=? n)%nat && String.eqb (String.substring (n - k) k s) p.

(** [old] is non-empty here: [go skip s] copies [s], replacing every
    occurrence of [old] found from left to right; [skip] counts the
    characters of an occurrence still to be dropped. *)
Fixpoint replace_go (old new : string) (skip : nat) (s : string) : string :=
  match s with
  | EmptyString => EmptyString
  | String a s' =>
      match skip with
      | S k => replace_go old new k s'
      | O =>
          if String.prefix old s
          then new +:+ replace_go old new (String.length old - 1) s'
          else String a (replace_go old new 0 s')
      end
  end.

Fixpoint intersperse_new (new : string) (s : string) : string :=
  match s with
  | EmptyString => new
  | String a s' => new +:+ String a (intersperse_new new s')
  end.

(** [s.replace(old, new)] *)
Definition replace (s old new : string) : string :=
  match old with
  | EmptyString => intersperse_new new s
  | _ => replace_go old new 0 s
  end.

(** ** Paths ([posixpath]) *)

(** [os.path.join(a, b)] *)
Definition path_join (a b : string) : string :=
  if startswith b "/" then b
  else if String.eqb a "" || endswith a "/" then a +:+ b
  else a +:+ "/" +:+ b.

(** [os.path.join(a, b1, ..., bn)] *)
Definition path_join_all (a : string) (bs : list string) : string :=
  foldl path_join a bs.

Fixpoint all_slashes (s : string) : bool :=
  match s with
  | EmptyString => true
  | String a s' => Ascii.eqb a "/"%char && all_slashes s'
  end.

Fixpoint rstrip_slashes (s : string) : string :=
  match s with
  | EmptyString => EmptyString
  | String a s' =>
      match rstrip_slashes s' with
      | EmptyString => if Ascii.eqb a "/"%char then EmptyString else String a EmptyString
      | r => String a r
      end
  end.

(** [p[:p.rfind('/') + 1]], with [pre] the characters already passed. *)
Fixpoint through_last_slash (pre : string) (s : string) : string :=
  match s with
  | EmptyString => EmptyString
  | String a s' =>
      let pre' := pre +:+ String a EmptyString in
      match through_last_slash pre' s' with
      | EmptyString => if Ascii.eqb a "/"%char then pre' else EmptyString
      | r => r
      end
  end.

(** [os.path.dirname(p)] *)
Definition dirname (p : string) : string :=
  let head := through_last_slash "" p in
  if all_slashes head then head else rstrip_slashes head.

(** The proper ancestors of [p], outermost first: the prefixes of [p] that
    end just before a separator. *)
Fixpoint ancestors_from (pre : string) (s : string) : list string :=
  match s with
  | EmptyString => []
  | String a s' =>
      let rest := ancestors_from (pre +:+ String a EmptyString) s' in
      if Ascii.eqb a "/"%char
      then (if String.eqb pre "" then "/" else pre) :: rest
      else rest
  end.

Definition ancestors (p : string) : list string := ancestors_from "" p.

(** ** Python values

    What [json.load] produces, which is what a configuration lookup
    returns; also the parameters and result rows of a statement.  Numbers
    are the integers (no float occurs in the properties below). *)

#[warnings="-register-all"]
Inductive value : Type :=
| JNull                                   (* None *)
| JBool (b : bool)
| JNum (n : Z)
| JStr (s : string)
| JList (l : list value)
| JObj (kv : list (string * value)).

(** Truth value of an object in a condition ([if v:], [not v]). *)
Definition truthy (v : value) : bool :=
  match v with
  | JNull => false
  | JBool b => b
  | JNum n => negb (n =? 0)%Z
  | JStr s => negb (String.eqb s "")
  | JList l => match l with [] => false | _ => true end
  | JObj kv => match kv with [] => false | _ => true end
  end.

(** [isinstance(v, list)] *)
Definition isinstance_list (v : value) : bool :=
  match v with JList _ => true | _ => false end.

Definition Z_of_bool (b : bool) : Z := if b then 1%Z else 0%Z.

(** [v == False]: [bool] is a subclass of [int], so the number zero
    compares equal to [False] as well. *)
Definition eq_False (v : value) : bool :=
  match v with
  | JBool b => negb b
  | JNum n => (n =? 0)%Z
  | _ => false
  end.

(** [v == n] for an integer [n]. *)
Definition eq_int (v : value) (n : Z) : bool :=
  match v with
  | JNum k => (k =? n)%Z
  | JBool b => (Z_of_bool b =? n)%Z
  | _ => false
  end.

(** [n in l] for an integer [n] and a list [l]. *)
Definition int_in (n : Z) (l : list value) : bool :=
  existsb (fun v => eq_int v n) l.

(** [s in l] for a string [s] and a list of strings [l]. *)
Definition str_in (s : string) (l : list string) : bool :=
  existsb (String.eqb s) l.

Fixpoint chars (s : string) : list value :=
  match s with
  | EmptyString => []
  | String a s' => JStr (String a EmptyString) :: chars s'
  end.

(** The items a [for] loop over [v] visits; [None] when [v] is not
    iterable (the loop then raises [TypeError]). *)
Definition py_iter (v : value) : option (list value) :=
  match v with
  | JList l => Some l
  | JStr s => Some (chars s)
  | JObj kv => Some (map (fun p => JStr (fst p)) kv)
  | _ => None
  end.

(** [type(v).__name__] *)
Definition type_name (v : value) : string :=
  match v with
  | JNull => "NoneType"
  | JBool _ => "bool"
  | JNum _ => "int"
  | JStr _ => "str"
  | JList _ => "list"
  | JObj _ => "dict"
  end.

(** ** Exceptions and results *)

Record exn : Type := Exn { exn_kind : string; exn_text : string }.

(** [str(e)] *)
Definition str_exn (e : exn) : string := exn_text e.

Inductive outcome (A : Type) : Type :=
| Ok (a : A)
| Raise (e : exn).

Arguments Ok {A} a.
Arguments Raise {A} e.

Definition AttributeError (type attr : string) : exn :=
  Exn "AttributeError" ("'" +:+ type +:+ "' object has no attribute '" +:+ attr +:+ "'").

Definition NotCallable (type : string) : exn :=
  Exn "TypeError" ("'" +:+ type +:+ "' object is not callable").

Definition NotIterable (type : string) : exn :=
  Exn "TypeError" ("'" +:+ type +:+ "' object is not iterable").

(** [v.lower()]: only [str] has the method. *)
Definition py_lower (v : value) : outcome string :=
  match v with
  | JStr s => Ok (lower s)
  | _ => Raise (AttributeError (type_name v) "lower")
  end.

(** ** Observable effects

    Texts built by f-strings are kept as their template and its
    arguments. *)

Inductive msg : Type :=
| MsgText (s : string)
| MsgExn (e : exn)
    (* the exception itself, rendered by str(e) *)
| MsgAdminNotification (payload : msg)
    (* f"{emo.ALERT} Admin Notification {emo.ALERT}\n{some_input}" *)
| MsgNotifyFailed (admin : value) (e : exn)
    (* f"Not possible to notify admin id '{admin}': {e}" *)
| MsgMissingDependency (plugin : string) (dependency : value)
    (* f"{emo.ERROR} Plugin '{self.name}' is missing dependency '{dependency}'" *)
| MsgDependenciesNotList (plugin : string).
    (* f"Dependencies for plugin '{self.name}' not defined as list" *)

Inductive event : Type :=
| ELogError (m : msg)                          (* logging.error(m) *)
| ESendMessage (chat : value) (m : msg)        (* bot.send_message(chat, m) *)
| EReplyText (m : msg)                         (* update.message.reply_text(m) *)
| EConnect (db_path : string) (timeout : option value) (* sqlite3.connect(db_path[, timeout]) *)
| EExecute (db_path : string) (sql : option string) (args : list value)
| ECommit (db_path : string)
| ECursorClose (db_path : string)
| EConClose (db_path : string).

(** ** The world a method runs in *)

Inductive node : Type :=
| File (content : string)
| Dir.

Record world : Type := World {
  fs : gmap string node;       (* the file tree, by path *)
  trace : list event           (* effects so far, oldest first *)
}.

(** A computation: it may change the world, and it returns or raises. *)
Definition M (A : Type) : Type := world -> outcome A * world.

#[global] Instance M_ret : MRet M := fun A a w => (Ok a, w).

#[global] Instance M_bind : MBind M := fun A B f m w =>
  match m w with
  | (Ok a, w') => f a w'
  | (Raise e, w') => (Raise e, w')
  end.

Definition raise {A : Type} (e : exn) : M A := fun w => (Raise e, w).

(** A pure step that may raise. *)
Definition lift {A : Type} (o : outcome A) : M A := fun w => (o, w).

(** [try: body  except Exception as e: handler(e)] *)
Definition try_except {A : Type} (body : M A) (handler : exn -> M A) : M A :=
  fun w =>
    match body w with
    | (Ok a, w') => (Ok a, w')
    | (Raise e, w') => handler e w'
    end.

Definition emit (e : event) : M unit :=
  fun w => (Ok tt, World (fs w) (trace w ++ [e])).

(** [logging.error(m)] *)
Definition logging_error (m : msg) : M unit := emit (ELogError m).

Definition is_file (t : gmap string node) (p : string) : bool :=
  match t !! p with
  | Some (File _) => true
  | _ => false
  end.

Definition is_dir (t : gmap string node) (p : string) : bool :=
  match t !! p with
  | Some Dir => true
  | _ => false
  end.

(** ** Configuration *)

Fixpoint assoc (k : string) (kv : list (string * value)) : option value :=
  match kv with
  | [] => None
  | (k', v) :: kv' => if String.eqb k k' then Some v else assoc k kv'
  end.

(** The value at a key path of a document, [JNull] where a key is absent
    or the value on the way is not an object. *)
Fixpoint lookup_path (doc : value) (keys : list string) : value :=
  match keys with
  | [] => doc
  | k :: ks =>
      match doc with
      | JObj kv =>
          match assoc k kv with
          | Some v => lookup_path v ks
          | None => JNull
          end
      | _ => JNull
      end
  end.

Module ConfigManager.

(** Modelled from the spec: the class [tgbf.config.ConfigManager] is
    imported by plugin.py and is not among the sources.  A scope is a
    JSON-shaped document bound to its backing file; a lookup by key path returns
    the value at the key path, or the "no value" result ([None]) when a
    key of the path is absent, and raises nothing. *)
Record t : Type := New { cfg_file : string; document : value }.

Definition get (cm : t) (keys : list string) : value :=
  lookup_path (document cm) keys.

End ConfigManager.

(** ** Environment

    The names of [tgbf.constants] used by plugin.py; the module is not
    among the sources, so the directory names are parameters. *)
Record constants : Type := Constants {
  DIR_SRC : string;
  DIR_PLG : string;
  DIR_RES : string;
  DIR_CFG : string;
  DIR_DAT : string;
  FILE_DAT : string
}.

Inductive os_call : Type :=
| Makedirs (p : string)
| OpenRead (p : string)
| OpenWrite (p : string)
| PathIsFile (p : string).

(** What the operating system, the SQLite engine and the Telegram API
    answer.  The file tree of the [world] records which paths exist;
    [os_fault] stands for every other reason a call is refused
    (permissions, I/O errors).  Database files are opaque: whether a
    connection opens and what a statement yields is the engine's answer. *)
Record env : Type := Env {
  c : constants;
  cwd : string;                                        (* os.getcwd() *)
  os_fault : os_call -> option exn;
  json_load : string -> option value;
  connect_fault : string -> option exn;                (* sqlite3.connect *)
  execute_result : string -> string -> list value -> outcome (list (list value));
                                                       (* the rows cur.execute leaves in the cursor *)
  commit_fault : string -> option exn;                 (* con.commit *)
  fetch_fault : string -> option exn;                  (* cur.fetchall / fetchone *)
  send_fault : value -> option exn;                    (* bot.send_message *)
  reply_fault : option exn                             (* message.reply_text *)
}.

(** ** The plugin object *)

(** What plugin.py reads of the bot: its global configuration and the
    names of the active plugins ([p.name for p in bot.plugins]). *)
Record TelegramBot : Type := Bot {
  bot_config : ConfigManager.t;        (* bot.config *)
  bot_plugins : list string            (* bot.plugins *)
}.

Record TGBFPlugin : Type := Plugin {
  class_name : string;                 (* type(self).__name__ *)
  _bot : TelegramBot;
  _name : string;
  _global_config : ConfigManager.t;
  _config : ConfigManager.t
}.

(** The part of a [telegram.Update] the decorators read. *)
Record Update : Type := Upd {
  effective_user : option Z;           (* update.effective_user.id, when there is a user *)
  message : option Z                   (* update.message.chat_id, when there is a message *)
}.

(** The dictionary [{"success": ..., "data": ...}]. *)
Record result : Type := Res { success : option bool; data : value }.

(** Truth value of an optional string argument ([None] or a [str]). *)
Definition given (s : option string) : bool :=
  match s with
  | Some t => negb (String.eqb t "")
  | None => false
  end.

Definition text_of (s : option string) : string :=
  match s with Some t => t | None => "" end.

Definition items (v : value) : list value :=
  match v with JList l => l | _ => [] end.

(** ** Methods of [TGBFPlugin] *)

Section Methods.

Context (E : env).

(** *** Calls into the environment *)

(** [os.makedirs(p, exist_ok=True)] *)
Definition os_makedirs (p : string) : M unit := fun w =>
  match os_fault E (Makedirs p) with
  | Some e => (Raise e, w)
  | None =>
      if String.eqb p "" then (Raise (Exn "FileNotFoundError" p), w)
      else if existsb (is_file (fs w)) (ancestors p) then (Raise (Exn "NotADirectoryError" p), w)
      else if is_file (fs w) p then (Raise (Exn "FileExistsError" p), w)
      else (Ok tt, World (foldr (fun q t => <[q:=Dir]> t) (fs w) (ancestors p ++ [p])) (trace w))
  end.

(** [with open(p, "r", encoding="utf8") as f: f.read()] *)
Definition read_text (p : string) : M string := fun w =>
  match os_fault E (OpenRead p) with
  | Some e => (Raise e, w)
  | None =>
      match fs w !! p with
      | Some (File content) => (Ok content, w)
      | Some Dir => (Raise (Exn "IsADirectoryError" p), w)
      | None => (Raise (Exn "FileNotFoundError" p), w)
      end
  end.

(** [Path(p).is_file()]: whether a regular file is at [p].  The method
    answers False for a path that does not exist and hands on every other
    refusal of the lookup (an OSError other than ENOENT, ENOTDIR, EBADF
    and ELOOP: a name too long, a directory that may not be searched). *)
Definition Path_is_file (p : string) : M bool := fun w =>
  match os_fault E (PathIsFile p) with
  | Some e => (Raise e, w)
  | None => (Ok (is_file (fs w) p), w)
  end.

(** [with open(p, 'w') as file: file.write(content)] *)
Definition write_text (p content : string) : M unit := fun w =>
  match os_fault E (OpenWrite p) with
  | Some e => (Raise e, w)
  | None =>
      if is_dir (fs w) p then (Raise (Exn "IsADirectoryError" p), w)
      else (Ok tt, World (<[p:=File content]> (fs w)) (trace w))
  end.

(** [self.bot.updater.bot.send_message(chat, m)] *)
Definition send_message (chat : value) (m : msg) : M unit :=
  match send_fault E chat with
  | Some e => raise e
  | None => emit (ESendMessage chat m)
  end.

(** [update.message.reply_text(m)] *)
Definition reply_text (update : Update) (m : msg) : M unit :=
  match message update with
  | None => raise (AttributeError "NoneType" "reply_text")
  | Some _ =>
      match reply_fault E with
      | Some e => raise e
      | None => emit (EReplyText m)
      end
  end.

(** [sqlite3.connect(db_path[, timeout=...])] followed by [con.cursor()] *)
Definition sqlite3_connect (db_path : string) (timeout : option value) : M unit :=
  match connect_fault E db_path with
  | Some e => raise e
  | None => emit (EConnect db_path timeout)
  end.

(** [cur.execute(sql, args)]: the statement has to be a [str]. *)
Definition cur_execute (db_path : string) (sql : option string) (args : list value)
  : M (list (list value)) :=
  match sql with
  | None => raise (Exn "TypeError" "execute() argument 1 must be str, not None")
  | Some s =>
      match execute_result E db_path s args with
      | Raise e => raise e
      | Ok rows => emit (EExecute db_path sql args);; mret rows
      end
  end.

(** [con.commit()] *)
Definition con_commit (db_path : string) : M unit :=
  match commit_fault E db_path with
  | Some e => raise e
  | None => emit (ECommit db_path)
  end.

(** [cur.fetchall()] on a cursor holding [rows] *)
Definition cur_fetchall (db_path : string) (rows : list (list value)) : M value :=
  match fetch_fault E db_path with
  | Some e => raise e
  | None => mret (JList (map JList rows))
  end.

(** [cur.fetchone()] on a cursor holding [rows] *)
Definition cur_fetchone (db_path : string) (rows : list (list value)) : M value :=
  match fetch_fault E db_path with
  | Some e => raise e
  | None => mret (match rows with [] => JNull | r :: _ => JList r end)
  end.

(** *** Properties *)

Definition bot (self : TGBFPlugin) : TelegramBot := _bot self.

Definition name (self : TGBFPlugin) : string := _name self.

Definition global_config (self : TGBFPlugin) : ConfigManager.t := _global_config self.

Definition config (self : TGBFPlugin) : ConfigManager.t := _config self.

Definition plugins (self : TGBFPlugin) : list string := bot_plugins (bot self).

(** The property [handle]. *)
Definition handle (self : TGBFPlugin) : outcome string :=
  let handle := ConfigManager.get (config self) ["handle"] in
  if truthy handle then py_lower handle else Ok (name self).

(** *** Paths *)

Definition or_self (plugin : option string) (self_name : string) : string :=
  if given plugin then text_of plugin else self_name.

Definition get_res_path (self_name : string) (plugin : option string) : string :=
  path_join_all (DIR_SRC (c E)) [DIR_PLG (c E); or_self plugin self_name; DIR_RES (c E)].

Definition get_cfg_path (self_name : string) (plugin : option string) : string :=
  path_join_all (DIR_SRC (c E)) [DIR_PLG (c E); or_self plugin self_name; DIR_CFG (c E)].

Definition get_dat_path (self_name : string) (plugin : option string) : string :=
  path_join_all (DIR_SRC (c E)) [DIR_PLG (c E); or_self plugin self_name; DIR_DAT (c E)].

(** *** Construction *)

(** Modelled from the spec: how [ConfigManager] obtains its document is
    not in the sources.  The document a scope serves is what [json.load]
    reads from its backing file, the empty document when there is nothing
    to read. *)
Definition load_document (t : gmap string node) (p : string) : value :=
  match t !! p with
  | Some (File content) => default (JObj []) (json_load E content)
  | _ => JObj []
  end.

(** Modelled from the spec: the constructor [ConfigManager(cfg_path)],
    which is not in the sources, binds the scope to the file at
    [cfg_path]; it writes nothing. *)
Definition ConfigManager_new (cfg_path : string) : M ConfigManager.t := fun w =>
  (Ok (ConfigManager.New cfg_path (load_document (fs w) cfg_path)), w).

(** [_init_plugin_cfg]: it is called by [__init__] once [self._name] is
    set, and reads nothing else of [self]. *)
Definition _init_plugin_cfg (self_name : string) : M ConfigManager.t :=
  let cfg_file := self_name +:+ ".json" in
  let cfg_fold := get_cfg_path self_name None in
  let cfg_path := path_join cfg_fold cfg_file in
  os_makedirs cfg_fold;;
  w ← (fun w => (Ok w, w));
  (if negb (is_file (fs w) cfg_path) then write_text cfg_path "{}" else mret tt);;
  ConfigManager_new cfg_path.

(** [__init__] of a plugin class named [cls]. *)
Definition __init__ (cls : string) (tg_bot : TelegramBot) : M TGBFPlugin :=
  let self_name := lower cls in
  cfg ← _init_plugin_cfg self_name;
  mret (Plugin cls tg_bot self_name (bot_config tg_bot) cfg).

(** *** Notification *)

Fixpoint notify_each (admins : list value) (some_input : msg) : M unit :=
  match admins with
  | [] => mret tt
  | admin :: rest =>
      try_except
        (send_message admin (MsgAdminNotification some_input))
        (fun e => logging_error (MsgNotifyFailed admin e));;
      notify_each rest some_input
  end.

Definition notify (self : TGBFPlugin) (some_input : msg) : M msg :=
  (if truthy (ConfigManager.get (global_config self) ["admin"; "notify_on_error"])
   then
     let ids := ConfigManager.get (global_config self) ["admin"; "ids"] in
     match py_iter ids with
     | Some admins => notify_each admins some_input
     | None => raise (NotIterable (type_name ids))
     end
   else mret tt);;
  mret some_input.

(** The statements shared by the [except] clauses: [logging.error(e)]
    and [self.notify(e)]. *)
Definition log_and_notify (self : TGBFPlugin) (e : exn) : M unit :=
  logging_error (MsgExn e);;
  notify self (MsgExn e);;
  mret tt.

(** *** Resources *)

(** [_get_resource_content] *)
Definition _get_resource_content (self : TGBFPlugin) (path : string) : M (option string) :=
  try_except
    (content ← read_text path; mret (Some content))
    (fun e => log_and_notify self e;; mret None).

(** [get_global_resource] *)
Definition get_global_resource (self : TGBFPlugin) (filename : string) : M (option string) :=
  let path := path_join_all (cwd E) [DIR_RES (c E); filename] in
  _get_resource_content self path.

(** [get_resource] *)
Definition get_resource (self : TGBFPlugin) (filename : string) (plugin : option string)
  : M (option string) :=
  let path := path_join (get_res_path (name self) plugin) filename in
  _get_resource_content self path.

(** Calling an object of type [str]: [handle] is a property, so
    [self.handle] already is the string, and [self.handle()] calls it. *)
Definition call_str (s : string) : M string := raise (NotCallable "str").

(** The loop [for placeholder, value in replace.items()], with the values
    already rendered by [str(value)]. *)
Definition replace_all (usage : string) (pairs : list (string * string)) : string :=
  foldl (fun u p => replace u (fst p) (snd p)) usage pairs.

(** [get_usage] *)
Definition get_usage (self : TGBFPlugin) (replace_with : option (list (string * string)))
  : M (option string) :=
  usage ← get_resource self (name self +:+ ".md") None;
  if given usage then
    h ← lift (handle self);
    h ← call_str h;
    let usage := replace (text_of usage) "{{handle}}" h in
    let usage :=
      match replace_with with
      | Some (p :: ps) => replace_all usage (p :: ps)
      | _ => usage
      end in
    mret (Some usage)
  else mret None.

(** *** Storage *)

Definition disabled : result := Res (Some false) (JStr "Database disabled").

Definition failed (e : exn) : result := Res (Some false) (JStr (str_exn e)).

(** The second try block of [_get_database_content].  [con] and [cur]
    are None until the connection opens; both the body and the handler
    assign the two entries of [res] anew; the finally clause closes what
    was opened and returns [res], which drops any exception still in
    flight. *)
Definition connect_and_run (self : TGBFPlugin) (db_path : string) (db_timeout : value)
    (sql : option string) (args : list value) : M result := fun w1 =>
  match sqlite3_connect db_path (Some db_timeout) w1 with
  | (Raise e, w2) =>
      let w3 := snd (log_and_notify self e w2) in
      (Ok (failed e), w3)
  | (Ok _, w2) =>
      let close := emit (ECursorClose db_path);; emit (EConClose db_path) in
      match (rows ← cur_execute db_path sql args;
             con_commit db_path;;
             cur_fetchall db_path rows) w2 with
      | (Ok rows, w3) => (Ok (Res (Some true) rows), snd (close w3))
      | (Raise e, w3) =>
          let w4 := snd (log_and_notify self e w3) in
          (Ok (failed e), snd (close w4))
      end
  end.

(** [_get_database_content] *)
Definition _get_database_content (self : TGBFPlugin) (db_path : string)
    (sql : option string) (args : list value) : M result :=
  let res := Res None JNull in
  (* Check if database usage is enabled *)
  if negb (truthy (ConfigManager.get (global_config self) ["database"; "use_db"]))
  then mret disabled
  else
    let timeout := ConfigManager.get (global_config self) ["database"; "timeout"] in
    let db_timeout := if truthy timeout then timeout else JNum 5 in
    (* first try: create the directory; its handler sets [res], logs,
       notifies and falls through to the second try *)
    res ← try_except
            (os_makedirs (dirname db_path);; mret res)
            (fun e => log_and_notify self e;; mret (failed e));
    connect_and_run self db_path db_timeout sql args.

(** [execute_global_sql] *)
Definition execute_global_sql (self : TGBFPlugin) (sql : option string) (args : list value)
  : M result :=
  let db_path := path_join_all (cwd E) [DIR_DAT (c E); FILE_DAT (c E)] in
  _get_database_content self db_path sql args.

(** The file name both [execute_sql] and [table_exists] compute first. *)
Definition resolve_db_name (self : TGBFPlugin) (plugin db_name : option string) : string :=
  if given db_name then
    if negb (endswith (lower (text_of db_name)) ".db")
    then text_of db_name +:+ ".db"
    else text_of db_name
  else
    if given plugin then text_of plugin +:+ ".db"
    else name self +:+ ".db".

(** The path [execute_sql] passes on. *)
Definition execute_sql_db_path (self : TGBFPlugin) (plugin db_name : option string) : string :=
  let db_name := resolve_db_name self plugin db_name in
  if given plugin then
    let plugin := lower (text_of plugin) in
    let data_path := get_dat_path (name self) (Some plugin) in
    path_join data_path db_name
  else path_join (get_dat_path (name self) None) db_name.

(** [execute_sql] *)
Definition execute_sql (self : TGBFPlugin) (sql : option string) (args : list value)
    (plugin db_name : option string) : M result :=
  _get_database_content self (execute_sql_db_path self plugin db_name) sql args.

(** The body of the try block of [_database_table_exists]: the probe of
    the schema catalogue, which sets [exists] when a row comes back. *)
Definition probe (db_path : string) (statement : option string) (table_name : value)
    (exists_ : bool) : M bool :=
  rows ← cur_execute db_path statement [table_name];
  row ← cur_fetchone db_path rows;
  mret (if truthy row then true else exists_).

(** [_database_table_exists] *)
Definition _database_table_exists (self : TGBFPlugin) (db_path : string) (table_name : value)
  : M bool :=
  present ← Path_is_file db_path;
  if negb present then mret false
  else
    sqlite3_connect db_path None;;
    let exists_ := false in
    statement ← get_global_resource self "table_exists.sql";
    exists_ ← try_except
                (probe db_path statement table_name exists_)
                (fun e => log_and_notify self e;; mret exists_);
    emit (EConClose db_path);;
    mret exists_.

(** [global_table_exists] *)
Definition global_table_exists (self : TGBFPlugin) (table_name : value) : M bool :=
  let db_path := path_join_all (cwd E) [DIR_DAT (c E); FILE_DAT (c E)] in
  _database_table_exists self db_path table_name.

(** The path [table_exists] passes on. *)
Definition table_exists_db_path (self : TGBFPlugin) (plugin db_name : option string) : string :=
  let db_name := resolve_db_name self plugin db_name in
  if given plugin then path_join (get_dat_path (name self) plugin) db_name
  else path_join (get_dat_path (name self) None) db_name.

(** [table_exists] *)
Definition table_exists (self : TGBFPlugin) (table_name : value)
    (plugin db_name : option string) : M bool :=
  _database_table_exists self (table_exists_db_path self plugin db_name) table_name.

(** [plugin_available] *)
Definition plugin_available (self : TGBFPlugin) (plugin_name : string) : bool :=
  str_in (lower plugin_name) (plugins self).

(** *** Decorators

    A handler [func(self, update, context, **kwargs)] is a computation
    returning a value; a decorator maps it to the wrapped computation. *)

(** [owner] *)
Definition owner (func : M value) (self : TGBFPlugin) (update : Update) : M value :=
  if eq_False (ConfigManager.get (config self) ["owner"]) then func
  else
    user_id ← match effective_user update with
              | Some id => mret id
              | None => raise (AttributeError "NoneType" "id")
              end;
    let admins_global := ConfigManager.get (global_config self) ["admin"; "ids"] in
    if truthy admins_global && isinstance_list admins_global
       && int_in user_id (items admins_global)
    then func
    else
      let admins_plugin := ConfigManager.get (config self) ["admins"] in
      if truthy admins_plugin && isinstance_list admins_plugin
         && int_in user_id (items admins_plugin)
      then func
      else mret JNull.

(** [self.get_plugins()]: [TGBFPlugin] defines the property [plugins] and
    no attribute [get_plugins], nor does a plugin class of the
    repository, so the lookup raises. *)
Definition get_plugins (self : TGBFPlugin) : M (list string) :=
  raise (AttributeError (class_name self) "get_plugins").

(** The first [dependency] whose lower-cased name is not in
    [plugin_names]. *)
Fixpoint first_missing (plugin_names : list string) (dependencies : list value)
  : outcome (option value) :=
  match dependencies with
  | [] => Ok None
  | dependency :: rest =>
      match py_lower dependency with
      | Raise e => Raise e
      | Ok d =>
          if negb (str_in d plugin_names) then Ok (Some dependency)
          else first_missing plugin_names rest
      end
  end.

(** [dependency] *)
Definition dependency (func : M value) (self : TGBFPlugin) (update : Update) : M value :=
  let dependencies := ConfigManager.get (config self) ["dependencies"] in
  if truthy dependencies && isinstance_list dependencies then
    plugin_names ← get_plugins self;
    missing ← lift (first_missing plugin_names (items dependencies));
    match missing with
    | Some dependency =>
        reply_text update (MsgMissingDependency (name self) dependency);;
        mret JNull
    | None => func
    end
  else
    logging_error (MsgDependenciesNotList (name self));;
    func.

End Methods.

(** ** Concrete inputs

    The directory names are those of the repository layout
    (tgbf/plugins/<name>/{resources,config,data}). *)

Definition layout : constants :=
  Constants "tgbf" "plugins" "resources" "config" "data" "global.db".

(** An environment in which no call is refused and a statement yields
    [rows]. *)
Definition calm (rows : list (list value)) : env :=
  Env layout "/srv/bot" (fun _ => None) (fun _ => None) (fun _ => None)
      (fun _ _ _ => Ok rows) (fun _ => None) (fun _ => None) (fun _ => None) None.


(** The same as [calm], except that every statement fails: the database
    file is not a database. *)
Definition corrupt : env :=
  Env layout "/srv/bot" (fun _ => None) (fun _ => None) (fun _ => None)
      (fun _ _ _ => Raise (Exn "DatabaseError" "file is not a database"))
      (fun _ => None) (fun _ => None) (fun _ => None) None.

Definition empty_world : world := World ∅ [].

(** Global configurations: storage switched on, with one admin who is
    notified; and one that says nothing about storage. *)
Definition global_on : ConfigManager.t :=
  ConfigManager.New "config/config.json"
    (JObj [("admin", JObj [("ids", JList [JNum 134166731]); ("notify_on_error", JBool true)]);
           ("database", JObj [("use_db", JBool true)])]).

Definition global_bare : ConfigManager.t :=
  ConfigManager.New "config/config.json"
    (JObj [("admin", JObj [("ids", JList [JNum 134166731])])]).

Definition plugin_with (cls : string) (active : list string) (global : ConfigManager.t)
    (doc : list (string * value)) : TGBFPlugin :=
  Plugin cls (Bot global active) (lower cls) global
         (ConfigManager.New
            (path_join (get_cfg_path (calm []) (lower cls) None) (lower cls +:+ ".json"))
            (JObj doc)).

(** A handler that replies with [s]. *)
Definition replying (s : string) : M value :=
  emit (EReplyText (MsgText s));; mret JNull.

(** ** The visibility filters and the handlers of the bundled plugins *)

(** What the Telegram API answers beyond [env]: the type of a chat, and
    the bot's own names; [INFO] is the constant [emo.INFO] of the
    module [tgbf.emoji], which is not among the sources. *)
Record telegram : Type := Telegram {
  INFO : string;
  chat_type : Z -> outcome string;     (* context.bot.get_chat(chat_id).type *)
  bot_username : option string;        (* context.bot.username *)
  bot_name : string                    (* context.bot.name *)
}.

(** [Chat.PRIVATE] *)
Definition Chat_PRIVATE : string := "private".

Section Visibility.

Context (E : env) (T : telegram).

(** [update.message.chat_id] *)
Definition message_chat_id (update : Update) : M Z :=
  match message update with
  | Some id => mret id
  | None => raise (AttributeError "NoneType" "chat_id")
  end.

(** The try block of a denial, whose bare [except] drops every error. *)
Definition deny (update : Update) (text : string) : M unit :=
  try_except (reply_text E update (MsgText text)) (fun _ => mret tt).

(** [private] *)
Definition private (func : M value) (self : TGBFPlugin) (update : Update) : M value :=
  if eq_False (ConfigManager.get (config self) ["private"]) then func
  else
    chat_id ← message_chat_id update;
    type ← lift (chat_type T chat_id);
    if String.eqb type Chat_PRIVATE then func
    else
      let name := if given (bot_username T) then text_of (bot_username T) else bot_name T in
      deny update (INFO T +:+ " Only allowed to execute in a private chat with @" +:+ name);;
      mret JNull.

(** [public] *)
Definition public (func : M value) (self : TGBFPlugin) (update : Update) : M value :=
  if eq_False (ConfigManager.get (config self) ["public"]) then func
  else
    chat_id ← message_chat_id update;
    type ← lift (chat_type T chat_id);
    if negb (String.eqb type Chat_PRIVATE) then func
    else
      deny update (INFO T +:+ " Only allowed to execute in a public chat");;
      mret JNull.

End Visibility.

Module Usage.

(** The parts of an update that [usage_callback] reads
    (src/tgbf/plugins/usage/usage.py). *)
Record Chat : Type := { id : Z; type : string }.

Record User : Type := {
  user_id : Z;                         (* u.id *)
  is_bot : bool;
  username : option string;
  first_name : string
}.

Record Update : Type := {
  effective_chat : option Chat;
  effective_user : option User;
  str_update : string                  (* str(update) *)
}.

Section Callback.

Context (E : env).



End Callback.

End Usage.

Module TGBF.

(** What start.py reads at start-up: the directory of the file itself,
    the command line, the console, and the constant [FILE_TKN] of
    [tgbf.constants] (the module is not among the sources). *)
Record startup : Type := Startup {
  here : string;                       (* os.path.dirname(os.path.realpath(__file__)) *)
  input_token : bool;                  (* self.args.input_token *)
  token : option string;               (* self.args.token *)
  input : outcome string;              (* input("Enter Telegram Bot Token: ") *)
  FILE_TKN : string
}.

(** [v[k]] for a string [k]. *)
Definition getitem (v : value) (k : string) : outcome value :=
  match v with
  | JObj kv =>
      match assoc k kv with
      | Some x => Ok x
      | None => Raise (Exn "KeyError" ("'" +:+ k +:+ "'"))
      end
  | JList _ => Raise (Exn "TypeError" "list indices must be integers or slices, not str")
  | JStr _ => Raise (Exn "TypeError" "string indices must be integers")
  | _ => Raise (Exn "TypeError" ("'" +:+ type_name v +:+ "' object is not subscriptable"))
  end.

(** [exit(text)] *)
Definition exit {A : Type} (text : string) : M A := raise (Exn "SystemExit" text).

(** [try: body  except KeyError as e: handler(e)] *)
Definition try_except_KeyError {A : Type} (body : M A) (handler : exn -> M A) : M A :=
  fun w =>
    match body w with
    | (Raise e, w') =>
        if String.eqb (exn_kind e) "KeyError" then handler e w' else (Raise e, w')
    | r => r
    end.

Section Start.

Context (E : env) (S : startup).

(** [json.load(file)] on the text read from the file *)
Definition json_load_text (content : string) : M value :=
  match json_load E content with
  | Some v => mret v
  | None => raise (Exn "JSONDecodeError" content)
  end.

(** [_get_bot_token] *)
Definition _get_bot_token : M value :=
  if input_token S then s ← lift (input S); mret (JStr s)
  else if given (token S) then mret (JStr (text_of (token S)))
  else
    let token_path := path_join (DIR_CFG (c E)) (FILE_TKN S) in
    try_except_KeyError
      (w ← (fun w => (Ok w, w));
       if is_file (fs w) token_path then
         content ← read_text E token_path;
         doc ← json_load_text content;
         lift (getitem doc "telegram")
       else
         exit ("ERROR: No token file '" +:+ FILE_TKN S +:+ "' found at '" +:+ token_path +:+ "'"))
      (fun e =>
         let cls_name := "Class: TGBF" in
         logging_error (MsgText ("KeyError(" +:+ exn_text e +:+ ") - " +:+ cls_name));;
         exit "ERROR: Can't read bot token").

(** [_get_data] *)
Definition _get_data (table : string) (key : value) : M value :=
  let path := here S in
  let path := path_join_all path ["plugins"; "bet"; "data"; "bet.db"] in
  w ← (fun w => (Ok w, w));
  if negb (is_file (fs w) path)
  then mret (JObj [("error", JStr ("File doesn't exist: " +:+ path))])
  else
    sqlite3_connect E path None;;
    rows ← (if truthy key then
              let column := if String.eqb table "bets" then "bet_address" else "address" in
              let sql := "SELECT * FROM " +:+ table +:+ " WHERE " +:+ column +:+ " = ?" in
              cur_execute E path (Some sql) [key]
            else
              let sql := "SELECT * FROM " +:+ table in
              cur_execute E path (Some sql) []);
    con_commit E path;;
    data ← cur_fetchall E path rows;
    emit (EConClose path);;
    mret data.

(** [_get_bet] *)
Definition _get_bet (key : value) : M value := _get_data "bets" key.

(** [_get_address] *)
Definition _get_address (key : value) : M value := _get_data "addresses" key.

End Start.

End TGBF.

(** ** Handlers, endpoints and jobs

    The dispatcher, the web application and the job queue belong to
    python-telegram-bot and Flask.  They are modelled by what plugin.py
    relies on: a registration is kept unless it is refused, and the queue
    lists the jobs it holds, by name or all of them, in an order of its
    own. *)

(** A [telegram.ext.Handler] and an [EndpointAction] are opaque objects,
    told apart by a key. *)
Record Handler : Type := { handler_type : string; handler_key : nat }.

Inductive schedule : Type :=
| Once (when : Z)
| Repeating (interval first : Z).

Record Job : Type := NewJob {
  job_callback : string;
  job_schedule : schedule;
  job_context : option string;
  job_name : string
}.

Inductive note : Type :=
| NInfo (text : string)                         (* logging.info(text) *)
| NError (text : string)                        (* logging.error(text) *)
| NDelete (chat_id msg_id : string).            (* bot.delete_message(chat_id, message_id) *)

Record runtime : Type := Runtime {
  dispatcher : list (Z * Handler);     (* bot.dispatcher, by group *)
  url_rules : list (string * string);  (* the rules of bot.web.app: rule and endpoint *)
  job_queue : list Job;                (* bot.job_queue *)
  _handlers : list Handler;            (* self._handlers *)
  _endpoints : gmap string string;     (* self._endpoints *)
  notes : list note
}.

Record services : Type := Services {
  add_handler_fault : Handler -> Z -> option exn;
  add_url_rule_fault : string -> option exn;
  delete_fault : string -> string -> option exn;
  utcnow : Z                           (* datetime.utcnow(), in seconds *)
}.

(** The order in which [JobQueue.jobs()] lists the jobs of the queue is
    the library's (a queue that waits to be started lists them as they
    were scheduled, a started one by their next run time);
    [JobQueue.get_jobs_by_name] selects from the same listing.  Jobs
    that ran or were removed are not modelled: the queue holds what was
    scheduled. *)
Record JobQueue : Type := { listing : list Job -> list Job }.

(** The time of the next run of a job, [when] and [first] counted from
    the same origin. *)
Definition next_run (j : Job) : Z :=
  match job_schedule j with
  | Once when => when
  | Repeating _ first => first
  end.

Definition sooner (a b : Job) : Prop := (next_run a <= next_run b)%Z.

#[global] Instance sooner_dec (a b : Job) : Decision (sooner a b) :=
  Z.le_dec (next_run a) (next_run b).

(** A queue that lists its jobs by their next run time. *)
Definition by_next_run : JobQueue := {| listing := merge_sort sooner |}.

(** A queue that lists its jobs as they were scheduled. *)
Definition as_scheduled : JobQueue := {| listing := fun jobs => jobs |}.

(** A telegram [Message], as far as [remove_msg] reads it. *)
Record Message : Type := { chat_id : Z; message_id : Z }.

(** [str(n)] for an integer [n] *)
Definition str_int (n : Z) : string := NilZero.string_of_int (Z.to_int n).

(** [s.split(sep)] for a separator of one character *)
Fixpoint split_on (sep : ascii) (s : string) : list string :=
  match s with
  | EmptyString => [EmptyString]
  | String a s' =>
      if Ascii.eqb a sep then EmptyString :: split_on sep s'
      else
        match split_on sep s' with
        | x :: xs => String a x :: xs
        | [] => [String a EmptyString]
        end
  end.

(** [l[i]] *)
Definition index (l : list string) (i : nat) : outcome string :=
  match l !! i with
  | Some x => Ok x
  | None => Raise (Exn "IndexError" "list index out of range")
  end.

Section Registration.

Context (T : telegram) (V : services) (Q : JobQueue).

(** [add_handler] *)
Definition add_handler (self : TGBFPlugin) (handler : Handler) (group : Z) (r : runtime)
  : outcome unit * runtime :=
  match add_handler_fault V handler group with
  | Some e => (Raise e, r)
  | None =>
      (Ok tt,
       Runtime (dispatcher r ++ [(group, handler)]) (url_rules r) (job_queue r)
               (_handlers r ++ [handler]) (_endpoints r)
               (notes r ++ [NInfo ("Plugin '" +:+ name self +:+ "': "
                                   +:+ handler_type handler +:+ " added")]))
  end.

(** [add_endpoint] *)
Definition add_endpoint (self : TGBFPlugin) (name_ : string) (endpoint : string) (r : runtime)
  : outcome unit * runtime :=
  let name_ := if startswith name_ "/" then name_ else "/" +:+ name_ in
  match add_url_rule_fault V name_ with
  | Some e => (Raise e, r)
  | None =>
      (Ok tt,
       Runtime (dispatcher r) (url_rules r ++ [(name_, name_)]) (job_queue r)
               (_handlers r) (<[name_:=endpoint]> (_endpoints r))
               (notes r ++ [NInfo ("Plugin '" +:+ name self +:+ "': Endpoint '"
                                   +:+ name_ +:+ "' added")]))
  end.

(** [get_jobs] *)
Definition get_jobs (name_ : option string) (r : runtime) : list Job :=
  if given name_
  then filter (fun j => job_name j = text_of name_) (listing Q (job_queue r))
  else listing Q (job_queue r).

Definition enqueue (j : Job) (r : runtime) : Job * runtime :=
  (j, Runtime (dispatcher r) (url_rules r) (job_queue r ++ [j])
              (_handlers r) (_endpoints r) (notes r)).

(** [run_repeating] *)
Definition run_repeating (self : TGBFPlugin) (callback : string) (interval first : Z)
    (context : option string) (name_ : option string) (r : runtime) : Job * runtime :=
  enqueue (NewJob callback (Repeating interval first) context
                  (if given name_ then text_of name_ else name self)) r.

(** [run_once] *)
Definition run_once (self : TGBFPlugin) (callback : string) (when : Z)
    (context : option string) (name_ : option string) (r : runtime) : Job * runtime :=
  enqueue (NewJob callback (Once when) context
                  (if given name_ then text_of name_ else name self)) r.

(** The closure [remove_msg_job] of [remove_msg], run on a job. *)
Definition remove_msg_job (job : Job) (r : runtime) : outcome unit * runtime :=
  let param_lst :=
    split_on "_" (match job_context job with Some s => s | None => "None" end) in
  match index param_lst 0 with
  | Raise e => (Raise e, r)
  | Ok chat_id =>
      match index param_lst 1 with
      | Raise e => (Raise e, r)
      | Ok msg_id =>
          let said n := Runtime (dispatcher r) (url_rules r) (job_queue r)
                                (_handlers r) (_endpoints r) (notes r ++ [n]) in
          match delete_fault V chat_id msg_id with
          | None => (Ok tt, said (NDelete chat_id msg_id))
          | Some e => (Ok tt, said (NError ("Not possible to remove message: " +:+ str_exn e)))
          end
      end
  end.

(** [remove_msg] *)
Definition remove_msg (self : TGBFPlugin) (message : Message) (after_secs : Z)
    (private_ public_ : bool) (r : runtime) : outcome unit * runtime :=
  match chat_type T (chat_id message) with
  | Raise e => (Raise e, r)
  | Ok type =>
      let is_private := String.eqb type Chat_PRIVATE in
      if (is_private && private_) || (negb is_private && public_)
      then
        (Ok tt,
         snd (run_once self "remove_msg_job" (utcnow V + after_secs)
                (Some (str_int (chat_id message) +:+ "_" +:+ str_int (message_id message)))
                None r))
      else (Ok tt, r)
  end.

End Registration.

(** ** Notions used in the statements below *)

(** What [notify] leaves in the trace for one admin: the message sent,
    or the log entry of the failed attempt. *)
Definition attempt (E : env) (some_input : msg) (admin : value) : event :=
  match send_fault E admin with
  | None => ESendMessage admin (MsgAdminNotification some_input)
  | Some e => ELogError (MsgNotifyFailed admin e)
  end.

(** What [notify] records for [some_input]: nothing when
    admin.notify_on_error is off, and else one [attempt] for each of the
    admin.ids, in their order. *)
Definition notified (E : env) (self : TGBFPlugin) (some_input : msg) : list event :=
  if truthy (ConfigManager.get (global_config self) ["admin"; "notify_on_error"])
  then map (attempt E some_input)
           (default [] (py_iter (ConfigManager.get (global_config self) ["admin"; "ids"])))
  else [].

(** The first error a statement meets on an open connection: at
    [execute], at [commit], or at [fetchall]. *)
Definition statement_error (E : env) (db_path sql : string) (args : list value) : option exn :=
  match execute_result E db_path sql args with
  | Raise e => Some e
  | Ok _ =>
      match commit_fault E db_path with
      | Some e => Some e
      | None => fetch_fault E db_path
      end
  end.

Definition rows_of (E : env) (db_path sql : string) (args : list value) : list (list value) :=
  match execute_result E db_path sql args with
  | Ok rows => rows
  | Raise _ => []
  end.

(** No connection is opened by the events [evs]. *)
Definition no_connect (evs : list event) : Prop :=
  forall p t, ~ In (EConnect p t) evs.

(** The first row of a result exists and has a column. *)
Definition has_row (rows : list (list value)) : bool :=
  match rows with
  | (_ :: _) :: _ => true
  | _ => false
  end.

(** Every path the plugin tracks as an endpoint begins with a slash. *)
Definition slashed (r : runtime) : Prop :=
  forall k e, _endpoints r !! k = Some e -> startswith k "/" = true.

(** Every handler the plugin tracks is registered with the dispatcher. *)
Definition tracked_registered (r : runtime) : Prop :=
  forall h, In h (_handlers r) -> exists g, In (g, h) (dispatcher r).

(** The character [a] does not occur in [s]. *)
Fixpoint free_of (a : ascii) (s : string) : bool :=
  match s with
  | EmptyString => true
  | String b s' => negb (Ascii.eqb b a) && free_of a s'
  end.

(** The admin settings let [notify] run: when notifications are switched
    on, the configured admin ids can be iterated over. *)
Definition admins_iterable (self : TGBFPlugin) : Prop :=
  truthy (ConfigManager.get (global_config self) ["admin"; "notify_on_error"]) = true ->
  py_iter (ConfigManager.get (global_config self) ["admin"; "ids"]) <> None.

(** [w'] is [w] with further events recorded and the same file tree. *)
Definition extends (w w' : world) : Prop :=
  fs w' = fs w /\ exists evs, trace w' = trace w ++ evs.

(** The user id occurs in the list configured as [v]; it occurs in no
    value that is not a list. *)
Definition listed (uid : Z) (v : value) : bool :=
  match v with
  | JList l => int_in uid l
  | _ => false
  end.

(** ** Further concrete inputs *)

(** A part of the path [p] is longer than the 255 bytes a file name may
    have. *)
Definition name_too_long (p : string) : bool :=
  existsb (fun part => Nat.ltb 255 (String.length part)) (split_on "/" p).

(** The same as [calm], except that looking up a path with too long a
    name is refused, as the operating system does (errno 36). *)
Definition long_names_refused : env :=
  Env layout "/srv/bot"
      (fun call => match call with
                   | PathIsFile p =>
                       if name_too_long p
                       then Some (Exn "OSError" ("[Errno 36] File name too long: '" +:+ p +:+ "'"))
                       else None
                   | _ => None
                   end)
      (fun _ => None) (fun _ => None)
      (fun _ _ _ => Ok []) (fun _ => None) (fun _ => None) (fun _ => None) None.

(** The same as [calm], except that no connection opens. *)
Definition unopened : env :=
  Env layout "/srv/bot" (fun _ => None) (fun _ => None)
      (fun _ => Some (Exn "OperationalError" "unable to open database file"))
      (fun _ _ _ => Ok []) (fun _ => None) (fun _ => None) (fun _ => None) None.

(** A global configuration that switches notifications on and names no
    admin. *)
Definition global_no_ids : ConfigManager.t :=
  ConfigManager.New "config/config.json"
    (JObj [("admin", JObj [("notify_on_error", JBool true)])]).

(** * Properties *)

(** ** Running computations *)

Lemma bind_ok {A B : Type} (m : M A) (f : A -> M B) (w w' : world) (a : A) :
  m w = (Ok a, w') -> (m ≫= f) w = f a w'.
Proof. intros H. unfold mbind, M_bind. now rewrite H. Qed.

Lemma bind_raise {A B : Type} (m : M A) (f : A -> M B) (w w' : world) (e : exn) :
  m w = (Raise e, w') -> (m ≫= f) w = (Raise e, w').
Proof. intros H. unfold mbind, M_bind. now rewrite H. Qed.

Lemma extends_refl (w : world) : extends w w.
Proof. split; [reflexivity | exists []; now rewrite app_nil_r]. Qed.

Lemma extends_trans (w1 w2 w3 : world) : extends w1 w2 -> extends w2 w3 -> extends w1 w3.
Proof.
  intros [F1 [e1 T1]] [F2 [e2 T2]]. split; [congruence |].
  exists (e1 ++ e2). now rewrite T2, T1, app_assoc.
Qed.

Lemma extends_emit (ev : event) (w : world) :
  extends w (World (fs w) (trace w ++ [ev])).
Proof. split; [reflexivity | now exists [ev]]. Qed.

(** ** Storage switched off *)

Lemma get_database_content_disabled (E : env) (self : TGBFPlugin) (db_path : string)
    (sql : option string) (args : list value) (w : world) :
  truthy (ConfigManager.get (global_config self) ["database"; "use_db"]) = false ->
  _get_database_content E self db_path sql args w = (Ok disabled, w).
Proof. intros H. unfold _get_database_content. now rewrite H. Qed.

(** C1. With the global flag database.use_db not set (absent, or set to a
    value that counts as false), [execute_sql] on any statement, target
    plugin and database name, and [execute_global_sql] on any statement,
    return success False with data "Database disabled" and leave the world
    as it was: the file tree is unchanged (no directory is created) and no
    event is recorded (no connection is opened). *)
Theorem C1_database_disabled (E : env) (self : TGBFPlugin) (sql : option string)
    (args : list value) (plugin db_name : option string) (w : world) :
  truthy (ConfigManager.get (global_config self) ["database"; "use_db"]) = false ->
  execute_sql E self sql args plugin db_name w
    = (Ok (Res (Some false) (JStr "Database disabled")), w)
  /\ execute_global_sql E self sql args w
    = (Ok (Res (Some false) (JStr "Database disabled")), w).
Proof.
  intros H. split.
  - unfold execute_sql. now apply get_database_content_disabled.
  - unfold execute_global_sql. now apply get_database_content_disabled.
Qed.

Lemma C1_database_disabled_witness :
  let self := plugin_with "Feedback" [] global_bare [] in
  let w := World {["tgbf/plugins/feedback/config/feedback.json" := File "{}"]} [] in
  ConfigManager.get (global_config self) ["database"; "use_db"] = JNull
  /\ execute_sql (calm []) self (Some "INSERT INTO feedback VALUES (?)") [JStr "hi"] None None w
       = (Ok (Res (Some false) (JStr "Database disabled")), w)
  /\ execute_global_sql (calm []) self (Some "INSERT INTO feedback VALUES (?)") [JStr "hi"] w
       = (Ok (Res (Some false) (JStr "Database disabled")), w).
Proof.
  intros self w. split; [reflexivity |].
  apply (C1_database_disabled (calm []) self). reflexivity.
Defined.

(** ** Notification *)

Lemma notify_each_trace (E : env) (admins : list value) (m : msg) (w : world) :
  notify_each E admins m w = (Ok tt, World (fs w) (trace w ++ map (attempt E m) admins)).
Proof.
  revert w. induction admins as [| admin rest IH]; intros w; simpl.
  - rewrite app_nil_r. now destruct w.
  - unfold mbind, M_bind, try_except, send_message, logging_error, raise, attempt at 1.
    destruct (send_fault E admin) as [e |]; simpl; rewrite IH; simpl;
      now rewrite <- app_assoc.
Qed.

Lemma notify_each_returns (E : env) (admins : list value) (m : msg) (w : world) :
  exists w', notify_each E admins m w = (Ok tt, w') /\ extends w w'.
Proof.
  revert w. induction admins as [| admin rest IH]; intros w; simpl.
  - exists w. split; [reflexivity | apply extends_refl].
  - unfold mbind, M_bind, try_except, send_message, logging_error, raise.
    destruct (send_fault E admin) as [e |]; simpl;
      match goal with
      | |- context [notify_each E rest m ?w1] =>
          destruct (IH w1) as [w' [R X]]; exists w'; split; [exact R |];
          eapply extends_trans; [apply extends_emit | exact X]
      end.
Qed.

Lemma notify_returns (E : env) (self : TGBFPlugin) (m : msg) (w : world) :
  admins_iterable self ->
  exists w', notify E self m w = (Ok m, w') /\ extends w w'.
Proof.
  intros wf. unfold notify, admins_iterable in *.
  destruct (truthy (ConfigManager.get (global_config self) ["admin"; "notify_on_error"])).
  - destruct (py_iter (ConfigManager.get (global_config self) ["admin"; "ids"]))
      as [admins |]; [| now contradiction wf].
    destruct (notify_each_returns E admins m w) as [w' [R X]].
    exists w'. split; [| exact X]. now rewrite (bind_ok _ _ _ _ _ R).
  - exists w. split; [reflexivity | apply extends_refl].
Qed.

Lemma log_and_notify_returns (E : env) (self : TGBFPlugin) (e : exn) (w : world) :
  admins_iterable self ->
  exists w', log_and_notify E self e w = (Ok tt, w')
             /\ extends (World (fs w) (trace w ++ [ELogError (MsgExn e)])) w'.
Proof.
  intros wf. unfold log_and_notify, logging_error.
  destruct (notify_returns E self (MsgExn e)
              (World (fs w) (trace w ++ [ELogError (MsgExn e)])) wf) as [w' [R X]].
  exists w'. split; [| exact X].
  unfold mbind, M_bind, emit at 1. now rewrite R.
Qed.

(** With admin settings that let [notify] run, [notify] returns its input
    and records exactly the attempts of [notified]. *)
Lemma notify_exact (E : env) (self : TGBFPlugin) (m : msg) (w : world) :
  admins_iterable self ->
  notify E self m w = (Ok m, World (fs w) (trace w ++ notified E self m)).
Proof.
  intros wf. unfold notify, notified, admins_iterable in *.
  destruct (truthy (ConfigManager.get (global_config self) ["admin"; "notify_on_error"])).
  - destruct (py_iter (ConfigManager.get (global_config self) ["admin"; "ids"]))
      as [admins |]; [| now contradiction wf].
    now rewrite (bind_ok _ _ _ _ _ (notify_each_trace E admins m w)).
  - unfold mbind, M_bind, mret, M_ret. rewrite app_nil_r. now destruct w.
Qed.

Lemma log_and_notify_exact (E : env) (self : TGBFPlugin) (e : exn) (w : world) :
  admins_iterable self ->
  log_and_notify E self e w
  = (Ok tt, World (fs w) (trace w ++ ELogError (MsgExn e) :: notified E self (MsgExn e))).
Proof.
  intros wf. unfold log_and_notify, logging_error.
  unfold mbind at 1, M_bind at 1, emit at 1.
  rewrite (bind_ok _ _ _ _ _ (notify_exact E self (MsgExn e) _ wf)).
  unfold mret, M_ret. cbn [fs trace]. now rewrite <- app_assoc.
Qed.

(** With notifications switched on and no list of admin ids configured,
    [notify] itself raises. *)
Lemma notify_raises_without_ids (E : env) (self : TGBFPlugin) (m : msg) (w : world) :
  truthy (ConfigManager.get (global_config self) ["admin"; "notify_on_error"]) = true ->
  ConfigManager.get (global_config self) ["admin"; "ids"] = JNull ->
  notify E self m w = (Raise (NotIterable "NoneType"), w).
Proof. intros H1 H2. unfold notify. now rewrite H1, H2. Qed.

(** ** Storage: failures *)

(** The second try block returns on every path. *)
Lemma connect_and_run_returns (E : env) (self : TGBFPlugin) (db_path : string)
    (db_timeout : value) (sql : option string) (args : list value) (w : world) :
  exists r w', connect_and_run E self db_path db_timeout sql args w = (Ok r, w').
Proof.
  unfold connect_and_run.
  destruct (sqlite3_connect E db_path _ w) as [[[] | e] w2].
  - destruct ((cur_execute E db_path sql args ≫= _) w2) as [[rows | e] w3];
      now eexists _, _.
  - now eexists _, _.
Qed.

(** With admin settings that let [notify] run, [_get_database_content]
    returns a result and raises nothing. *)
Lemma get_database_content_returns (E : env) (self : TGBFPlugin) (db_path : string)
    (sql : option string) (args : list value) (w : world) :
  admins_iterable self ->
  exists r w', _get_database_content E self db_path sql args w = (Ok r, w').
Proof.
  intros wf. unfold _get_database_content.
  destruct (negb _); [now eexists _, _ |].
  unfold mbind at 1, M_bind at 1, try_except.
  destruct ((os_makedirs E (dirname db_path) ≫= λ _ : (), mret (Res None JNull)) w)
    as [[r | e] w1].
  - apply connect_and_run_returns.
  - destruct (log_and_notify_returns E self e w1 wf) as [w2 [R _]].
    rewrite (bind_ok _ _ _ _ _ R). apply connect_and_run_returns.
Qed.

(** A refused connection is logged, notified and returned as a failure
    carrying the error text. *)
Lemma connect_failure_reported (E : env) (self : TGBFPlugin) (db_path : string)
    (db_timeout : value) (sql : option string) (args : list value) (w : world) (e : exn) :
  admins_iterable self ->
  connect_fault E db_path = Some e ->
  exists w', connect_and_run E self db_path db_timeout sql args w
               = (Ok (Res (Some false) (JStr (exn_text e))), w')
             /\ In (ELogError (MsgExn e)) (trace w').
Proof.
  intros wf refused. unfold connect_and_run, sqlite3_connect. rewrite refused.
  unfold raise.
  destruct (log_and_notify_returns E self e w wf) as [w2 [R [_ [evs T]]]].
  exists w2. rewrite R. split; [reflexivity |].
  rewrite T. simpl. apply in_or_app. left. apply in_or_app. right. now left.
Qed.

(** A statement that fails on an open connection is logged and returned
    as a failure carrying the error text, and the connection is closed. *)
Lemma execute_failure_reported (E : env) (self : TGBFPlugin) (db_path : string)
    (db_timeout : value) (sql : string) (args : list value) (w : world) (e : exn) :
  connect_fault E db_path = None ->
  execute_result E db_path sql args = Raise e ->
  exists w', connect_and_run E self db_path db_timeout (Some sql) args w
               = (Ok (Res (Some false) (JStr (exn_text e))), w')
             /\ last (trace w') = Some (EConClose db_path).
Proof.
  intros opened broken. unfold connect_and_run, sqlite3_connect. rewrite opened.
  unfold emit at 1. unfold mbind at 3, M_bind at 1, cur_execute. rewrite broken.
  unfold raise. eexists. split; [reflexivity |].
  unfold mbind, M_bind, emit. simpl. now rewrite last_snoc.
Qed.

(** A failure of the directory step does not end the call: the result is
    whatever the second try block returns. *)
Lemma directory_failure_falls_through (E : env) (self : TGBFPlugin) (db_path : string)
    (sql : option string) (args : list value) (w w1 w2 : world) (e : exn) :
  truthy (ConfigManager.get (global_config self) ["database"; "use_db"]) = true ->
  os_makedirs E (dirname db_path) w = (Raise e, w1) ->
  log_and_notify E self e w1 = (Ok tt, w2) ->
  _get_database_content E self db_path sql args w
  = connect_and_run E self db_path
      (if truthy (ConfigManager.get (global_config self) ["database"; "timeout"])
       then ConfigManager.get (global_config self) ["database"; "timeout"]
       else JNum 5) sql args w2.
Proof.
  intros on refused told. unfold _get_database_content. rewrite on. cbn [negb].
  unfold mbind at 1, M_bind at 1, try_except. cbv beta.
  rewrite (bind_raise _ _ _ _ _ refused).
  now rewrite (bind_ok _ _ _ _ _ told).
Qed.


(** ** The dependency filter *)

(** A non-empty list of dependencies sends the wrapper to
    [self.get_plugins()], which no plugin class has: the wrapper raises
    before it compares a name, replies or calls the handler. *)
Lemma dependency_list_raises (E : env) (func : M value) (self : TGBFPlugin)
    (update : Update) (w : world) (d : value) (ds : list value) :
  ConfigManager.get (config self) ["dependencies"] = JList (d :: ds) ->
  dependency E func self update w
  = (Raise (AttributeError (class_name self) "get_plugins"), w).
Proof. intros H. unfold dependency. now rewrite H. Qed.

(** A dependency setting that is not a list (or is absent, or empty) is
    logged as an error and the handler is called. *)
Lemma dependency_not_list (E : env) (func : M value) (self : TGBFPlugin)
    (update : Update) (w : world) :
  truthy (ConfigManager.get (config self) ["dependencies"])
    && isinstance_list (ConfigManager.get (config self) ["dependencies"]) = false ->
  dependency E func self update w
  = func (World (fs w) (trace w ++ [ELogError (MsgDependenciesNotList (name self))])).
Proof. intros H. unfold dependency. now rewrite H. Qed.

(** C3. The failing run: plugin Stats declares the dependency usage, which
    is not active.  The wrapped handler raises AttributeError; nothing is
    replied and the handler body does not run. *)
Theorem C3_dependency_check_raises :
  let stats := plugin_with "Stats" [] global_on [("dependencies", JList [JStr "usage"])] in
  dependency (calm []) (replying "42 commands today") stats (Upd (Some 7%Z) (Some 7%Z)) empty_world
  = (Raise (Exn "AttributeError" "'Stats' object has no attribute 'get_plugins'"),
     empty_world).
Proof. reflexivity. Qed.

(** ** Usage texts *)

(** A resource that cannot be read yields None, after the error is logged
    and notified. *)
Lemma resource_read_failure (E : env) (self : TGBFPlugin) (path : string)
    (w w1 : world) (e : exn) :
  admins_iterable self ->
  read_text E path w = (Raise e, w1) ->
  exists w', _get_resource_content E self path w = (Ok None, w')
             /\ extends (World (fs w1) (trace w1 ++ [ELogError (MsgExn e)])) w'.
Proof.
  intros wf broken. unfold _get_resource_content, try_except.
  rewrite (bind_raise _ _ _ _ _ broken).
  destruct (log_and_notify_returns E self e w1 wf) as [w' [R X]].
  exists w'. now rewrite (bind_ok _ _ _ _ _ R).
Qed.

(** A usage file that is read and is not empty sends [get_usage] to the
    call [self.handle()], which raises: no text is returned. *)
Lemma get_usage_raises (E : env) (self : TGBFPlugin)
    (replace_with : option (list (string * string))) (w : world) (content h : string) :
  read_text E (path_join (get_res_path E (name self) None) (name self +:+ ".md")) w
    = (Ok content, w) ->
  content <> "" ->
  handle self = Ok h ->
  get_usage E self replace_with w = (Raise (NotCallable "str"), w).
Proof.
  intros readable nonempty hd. unfold get_usage, get_resource, _get_resource_content.
  unfold mbind at 1, M_bind at 1, try_except.
  rewrite (bind_ok _ _ _ _ _ readable). simpl.
  destruct (String.eqb_spec content ""); [contradiction |]. simpl.
  unfold mbind, M_bind, lift, call_str, raise. now rewrite hd.
Qed.

(** C4. The failing run: the usage file of plugin About is readable and
    holds a text with the handle placeholder.  [get_usage] raises
    TypeError instead of returning the text with the handle filled in. *)
Theorem C4_get_usage_raises :
  let about := plugin_with "About" [] global_on [] in
  let w := World {["tgbf/plugins/about/resources/about.md" := File "Send /{{handle}}"]} [] in
  get_usage (calm []) about None w
  = (Raise (Exn "TypeError" "'str' object is not callable"), w).
Proof. reflexivity. Qed.

(** ** The owner filter *)

Lemma listed_guard (uid : Z) (v : value) :
  truthy v && isinstance_list v && int_in uid (items v) = listed uid v.
Proof.
  destruct v as [| b | n | s | [| x l] | kv]; simpl;
    rewrite ?andb_false_r; reflexivity.
Qed.

(** The comparison [== False] holds for False and for the number zero,
    and for nothing else. *)
Lemma eq_False_spec (v : value) :
  eq_False v = true <-> v = JBool false \/ v = JNum 0.
Proof.
  destruct v as [| [] | n | s | l | kv]; simpl; split;
    try discriminate; try (intros [H | H]; discriminate); auto.
  - intros H. right. f_equal. now apply Z.eqb_eq.
  - intros [H | H]; [discriminate |]. injection H as ->. reflexivity.
Qed.

(** C5. With the plugin's owner setting false (more generally, with a
    setting that compares equal to False), the wrapped handler is the
    handler itself, for every user.  With any other setting (one that does
    not compare equal to False: absent, true, ...), for an update that
    carries a user id: if the id is in the global admin id list or in the
    plugin's admins list the wrapped handler is the handler itself;
    if it is in neither, the call returns None and leaves the world as it
    was (no message sent, no handler body run, nothing raised). *)
Theorem C5_owner_filter (func : M value) (self : TGBFPlugin)
    (update : Update) (w : world) :
  (ConfigManager.get (config self) ["owner"] = JBool false ->
   owner func self update w = func w)
  /\
  (eq_False (ConfigManager.get (config self) ["owner"]) = true ->
   owner func self update w = func w)
  /\
  (forall uid : Z,
     eq_False (ConfigManager.get (config self) ["owner"]) = false ->
     effective_user update = Some uid ->
     let admitted :=
       listed uid (ConfigManager.get (global_config self) ["admin"; "ids"])
       || listed uid (ConfigManager.get (config self) ["admins"]) in
     (admitted = true -> owner func self update w = func w)
     /\ (admitted = false -> owner func self update w = (Ok JNull, w))).
Proof.
  split; [| split].
  - intros off. unfold owner. now rewrite off.
  - intros off. unfold owner. now rewrite off.
  - intros uid on user admitted. subst admitted. unfold owner. rewrite on, user.
    unfold mbind, M_bind, mret, M_ret. rewrite !listed_guard.
    destruct (listed uid (ConfigManager.get (global_config self) ["admin"; "ids"]));
      destruct (listed uid (ConfigManager.get (config self) ["admins"]));
      simpl; split; intros; try discriminate; reflexivity.
Qed.

Lemma C5_owner_filter_witness :
  let admin := plugin_with "Admin" [] global_on [("owner", JBool true); ("admins", JList [JNum 5])] in
  let w := empty_world in
  (owner (replying "done") admin (Upd (Some 5%Z) (Some 5%Z)) w
     = replying "done" w)
  /\ (owner (replying "done") admin (Upd (Some 99%Z) (Some 99%Z)) w
     = (Ok JNull, w)).
Proof.
  intros admin w. split.
  - apply (proj2 (proj2 (C5_owner_filter (replying "done") admin
                             (Upd (Some 5%Z) (Some 5%Z)) w)) 5%Z); reflexivity.
  - apply (proj2 (proj2 (C5_owner_filter (replying "done") admin
                             (Upd (Some 99%Z) (Some 99%Z)) w)) 99%Z); reflexivity.
Defined.

(** ** Existence of a table *)

Lemma table_exists_missing_file (E : env) (self : TGBFPlugin) (db_path : string)
    (table_name : value) (w : world) :
  os_fault E (PathIsFile db_path) = None ->
  is_file (fs w) db_path = false ->
  _database_table_exists E self db_path table_name w = (Ok false, w).
Proof.
  intros answered missing. unfold _database_table_exists.
  unfold mbind at 1, M_bind at 1, Path_is_file. now rewrite answered, missing.
Qed.

(** A refused lookup of the path is handed on to the caller. *)
Lemma table_exists_lookup_refused (E : env) (self : TGBFPlugin) (db_path : string)
    (table_name : value) (w : world) (e : exn) :
  os_fault E (PathIsFile db_path) = Some e ->
  _database_table_exists E self db_path table_name w = (Raise e, w).
Proof.
  intros refused. unfold _database_table_exists.
  unfold mbind at 1, M_bind at 1, Path_is_file. now rewrite refused.
Qed.

(** With the file present, the call goes on to open the connection. *)
Lemma table_exists_present (E : env) (self : TGBFPlugin) (db_path : string)
    (table_name : value) (w : world) :
  os_fault E (PathIsFile db_path) = None ->
  is_file (fs w) db_path = true ->
  _database_table_exists E self db_path table_name w
  = (sqlite3_connect E db_path None;;
     statement ← get_global_resource E self "table_exists.sql";
     exists_ ← try_except
                 (probe E db_path statement table_name false)
                 (fun e => log_and_notify E self e;; mret false);
     emit (EConClose db_path);;
     mret exists_) w.
Proof.
  intros answered present. unfold _database_table_exists.
  unfold mbind at 1, M_bind at 1, Path_is_file. now rewrite answered, present.
Qed.

(** With admin settings that let [notify] run, reading a resource
    returns: the text, or None after the error was logged and notified. *)
Lemma get_resource_content_returns (E : env) (self : TGBFPlugin) (path : string) (w : world) :
  admins_iterable self ->
  exists (content : option string) (w' : world),
    _get_resource_content E self path w = (Ok content, w') /\ fs w' = fs w.
Proof.
  intros wf. unfold _get_resource_content, try_except.
  destruct (read_text E path w) as [[content | e] w1] eqn:read.
  - rewrite (bind_ok _ _ _ _ _ read). exists (Some content), w1. split; [reflexivity |].
    unfold read_text in read. destruct (os_fault E (OpenRead path)); [discriminate |].
    destruct (fs w !! path) as [[] |]; now inversion read.
  - rewrite (bind_raise _ _ _ _ _ read).
    destruct (log_and_notify_returns E self e w1 wf) as [w' [R [F _]]].
    rewrite (bind_ok _ _ _ _ _ R). exists None, w'. split; [reflexivity |].
    rewrite F. simpl.
    unfold read_text in read. destruct (os_fault E (OpenRead path)); [now inversion read |].
    destruct (fs w !! path) as [[] |]; now inversion read.
Qed.

(** The probe cannot run without a statement. *)
Lemma probe_without_statement (E : env) (db_path : string) (table_name : value)
    (exists_ : bool) (w : world) :
  probe E db_path None table_name exists_ w
  = (Raise (Exn "TypeError" "execute() argument 1 must be str, not None"), w).
Proof. reflexivity. Qed.

(** The probe leaves the file tree alone. *)
Lemma probe_keeps_tree (E : env) (db_path : string) (statement : option string)
    (table_name : value) (exists_ : bool) (w : world) :
  fs (snd (probe E db_path statement table_name exists_ w)) = fs w.
Proof.
  unfold probe, cur_execute, cur_fetchone, mbind, M_bind, raise, emit, mret, M_ret.
  destruct statement as [sql |]; [| reflexivity].
  destruct (execute_result E db_path sql [table_name]) as [rows | e]; [| reflexivity].
  simpl. now destruct (fetch_fault E db_path).
Qed.

Lemma table_exists_probe_failure (E : env) (self : TGBFPlugin) (db_path : string)
    (table_name : value) (w w1 w2 : world) (statement : option string) (e : exn) :
  os_fault E (PathIsFile db_path) = None ->
  is_file (fs w) db_path = true ->
  connect_fault E db_path = None ->
  admins_iterable self ->
  get_global_resource E self "table_exists.sql"
    (World (fs w) (trace w ++ [EConnect db_path None])) = (Ok statement, w1) ->
  probe E db_path statement table_name false w1 = (Raise e, w2) ->
  _database_table_exists E self db_path table_name w
  = (Ok false,
     World (fs w)
           (trace w2 ++ ELogError (MsgExn e) :: notified E self (MsgExn e)
                     ++ [EConClose db_path])).
Proof.
  intros answered present opened wf loaded broken.
  assert (tree : fs w2 = fs w).
  { pose proof (probe_keeps_tree E db_path statement table_name false w1) as kept.
    rewrite broken in kept. cbn [snd] in kept. rewrite kept.
    destruct (get_resource_content_returns E self
                (path_join_all (cwd E) [DIR_RES (c E); "table_exists.sql"])
                (World (fs w) (trace w ++ [EConnect db_path None])) wf)
      as (content & w' & read & same).
    unfold get_global_resource in loaded. rewrite read in loaded.
    injection loaded as _ <-. exact same. }
  rewrite (table_exists_present E self db_path table_name w answered present).
  unfold sqlite3_connect. rewrite opened.
  unfold mbind at 1, M_bind at 1, emit at 1.
  rewrite (bind_ok _ _ _ _ _ loaded).
  unfold mbind at 1, M_bind at 1, try_except. rewrite broken.
  rewrite (bind_ok _ _ _ _ _ (log_and_notify_exact E self e w2 wf)).
  unfold mret at 1, M_ret at 1, mbind, M_bind, emit, mret, M_ret. cbn [fs trace].
  rewrite tree. now rewrite <- app_assoc.
Qed.

(** Once the path is looked up and the connection is open the call
    returns, whatever the probe does. *)
Lemma table_exists_returns (E : env) (self : TGBFPlugin) (db_path : string)
    (table_name : value) (w : world) :
  os_fault E (PathIsFile db_path) = None ->
  connect_fault E db_path = None ->
  admins_iterable self ->
  exists (found : bool) (w' : world),
    _database_table_exists E self db_path table_name w = (Ok found, w').
Proof.
  intros answered opened wf. unfold _database_table_exists.
  unfold mbind at 1, M_bind at 1, Path_is_file. rewrite answered.
  destruct (negb (is_file (fs w) db_path)); [now eexists _, _ |].
  unfold sqlite3_connect. rewrite opened.
  unfold mbind at 1, M_bind at 1, emit at 1.
  destruct (get_resource_content_returns E self
              (path_join_all (cwd E) [DIR_RES (c E); "table_exists.sql"])
              (World (fs w) (trace w ++ [EConnect db_path None])) wf)
    as (statement & w1 & loaded & _).
  unfold get_global_resource. rewrite (bind_ok _ _ _ _ _ loaded).
  unfold mbind at 1, M_bind at 1, try_except.
  destruct (probe E db_path statement table_name false w1) as [[found | e] w2].
  - now eexists _, _.
  - destruct (log_and_notify_returns E self e w2 wf) as [w3 [told _]].
    rewrite (bind_ok _ _ _ _ _ told). now eexists _, _.
Qed.

(** C6, as stated, fails, in each of its two parts.  No file is at a path
    whose name has 300 characters, and [table_exists] raises the OSError
    of the refused lookup instead of returning False.  A file that is not
    a database makes the probe fail, and with notifications switched on
    and no admin.ids configured [table_exists] raises the TypeError of
    [notify] after logging the failure, instead of returning False.  And
    a file whose connection is refused makes it raise as well: the
    connection is opened outside the try block. *)
Lemma C6_table_exists_raises :
  let self := plugin_with "Feedback" [] global_on [] in
  let unlisted := plugin_with "Feedback" [] global_no_ids [] in
  let long := String.concat "" (replicate 300 "x") in
  let db_path := "tgbf/plugins/feedback/data/feedback.db" in
  let probe_sql := "SELECT name FROM sqlite_master WHERE type = 'table' AND name = ?" in
  let w := World (<[db_path := File "not a database"]>
                    {["/srv/bot/resources/table_exists.sql" := File probe_sql]}) [] in
  let e := Exn "DatabaseError" "file is not a database" in
  (is_file (fs empty_world) (table_exists_db_path long_names_refused self None (Some long))
   = false
   /\ exists refused : exn,
        exn_kind refused = "OSError"
        /\ table_exists long_names_refused self (JStr "feedback") None (Some long) empty_world
           = (Raise refused, empty_world))
  /\ (is_file (fs w) db_path = true
      /\ probe corrupt db_path (Some probe_sql) (JStr "feedback") false
           (World (fs w) [EConnect db_path None])
         = (Raise e, World (fs w) [EConnect db_path None])
      /\ table_exists corrupt unlisted (JStr "feedback") None None w
         = (Raise (NotIterable "NoneType"),
            World (fs w) [EConnect db_path None; ELogError (MsgExn e)]))
  /\ (is_file (fs w) db_path = true
      /\ table_exists unopened self (JStr "feedback") None None w
         = (Raise (Exn "OperationalError" "unable to open database file"), w)).
Proof.
  intros self unlisted long db_path probe_sql w e. split; [| split].
  - split; [vm_compute; reflexivity |].
    eexists. split; [| apply table_exists_lookup_refused; vm_compute; reflexivity].
    reflexivity.
  - split; [reflexivity |]. split; [reflexivity |]. vm_compute. reflexivity.
  - split; [reflexivity |]. vm_compute. reflexivity.
Qed.

(** C6, amended.  [table_exists] and [global_table_exists] run
    [_database_table_exists] on the path they resolve.  When the lookup
    of that path is answered and no file is there, the call returns False
    and leaves the world as it was: nothing is raised, nothing is logged,
    no connection is opened.  When the lookup is answered, the file is
    there, the connection opens and the admin settings let [notify] run
    (admin.ids can be iterated over when admin.notify_on_error is on),
    the probe statement is loaded and the call returns and raises
    nothing; and if the probe raises, the error is logged, then every
    configured admin is notified of it (the message sent, or the failed
    attempt logged), then the connection is closed, and the call returns
    False with the file tree as it was. *)
Theorem C6_table_exists (E : env) (self : TGBFPlugin) (table_name : value)
    (plugin db_name : option string) (db_path : string) (w : world) :
  table_exists E self table_name plugin db_name
    = _database_table_exists E self (table_exists_db_path E self plugin db_name) table_name
  /\ global_table_exists E self table_name
    = _database_table_exists E self
        (path_join_all (cwd E) [DIR_DAT (c E); FILE_DAT (c E)]) table_name
  /\ (os_fault E (PathIsFile db_path) = None ->
      is_file (fs w) db_path = false ->
      _database_table_exists E self db_path table_name w = (Ok false, w))
  /\ (os_fault E (PathIsFile db_path) = None ->
      is_file (fs w) db_path = true ->
      connect_fault E db_path = None ->
      admins_iterable self ->
      (exists (found : bool) (w' : world),
         _database_table_exists E self db_path table_name w = (Ok found, w'))
      /\
      exists (statement : option string) (w1 : world),
        get_global_resource E self "table_exists.sql"
          (World (fs w) (trace w ++ [EConnect db_path None])) = (Ok statement, w1)
        /\ forall (e : exn) (w2 : world),
             probe E db_path statement table_name false w1 = (Raise e, w2) ->
             _database_table_exists E self db_path table_name w
             = (Ok false,
                World (fs w)
                      (trace w2 ++ ELogError (MsgExn e) :: notified E self (MsgExn e)
                                ++ [EConClose db_path]))).
Proof.
  split; [reflexivity |]. split; [reflexivity |]. split.
  - apply table_exists_missing_file.
  - intros answered present opened wf. split; [now apply table_exists_returns |].
    destruct (get_resource_content_returns E self
                (path_join_all (cwd E) [DIR_RES (c E); "table_exists.sql"])
                (World (fs w) (trace w ++ [EConnect db_path None])) wf)
      as (statement & w1 & loaded & _).
    exists statement, w1. split; [exact loaded |].
    intros e w2 broken.
    now apply (table_exists_probe_failure E self db_path table_name w w1 w2 statement e).
Qed.

Lemma C6_table_exists_witness :
  let self := plugin_with "Feedback" [] global_on [] in
  let db_path := "tgbf/plugins/feedback/data/feedback.db" in
  let probe_sql := "SELECT name FROM sqlite_master WHERE type = 'table' AND name = ?" in
  let w := World (<[db_path := File "not a database"]>
                    {["/srv/bot/resources/table_exists.sql" := File probe_sql]}) [] in
  let e := Exn "DatabaseError" "file is not a database" in
  table_exists_db_path corrupt self None None = db_path
  /\ _database_table_exists corrupt self db_path (JStr "feedback") empty_world
     = (Ok false, empty_world)
  /\ _database_table_exists corrupt self db_path (JStr "feedback") w
     = (Ok false,
        World (fs w) [EConnect db_path None;
                      ELogError (MsgExn e);
                      ESendMessage (JNum 134166731) (MsgAdminNotification (MsgExn e));
                      EConClose db_path]).
Proof.
  intros self db_path probe_sql w e. split; [reflexivity |]. split.
  - apply (C6_table_exists corrupt self (JStr "feedback") None None db_path empty_world);
      reflexivity.
  - destruct (C6_table_exists corrupt self (JStr "feedback") None None db_path w)
      as (_ & _ & _ & probing).
    destruct probing as (_ & statement & w1 & loaded & caught).
    + reflexivity.
    + reflexivity.
    + reflexivity.
    + intros _. discriminate.
    + injection loaded as <- <-.
      exact (caught e (World (fs w) [EConnect db_path None]) eq_refl).
Defined.

(** ** Strings *)

Lemma length_app (s t : string) :
  String.length (s +:+ t) = String.length s + String.length t.
Proof. induction s as [| a s IH]; simpl; [reflexivity | now rewrite IH]. Qed.

Lemma substring_all (p : string) : String.substring 0 (String.length p) p = p.
Proof. induction p as [| a p IH]; simpl; [reflexivity | now rewrite IH]. Qed.

Lemma substring_skip (s p : string) :
  String.substring (String.length s) (String.length p) (s +:+ p) = p.
Proof. induction s as [| a s IH]; simpl; [apply substring_all | exact IH]. Qed.

Lemma endswith_app (s p : string) : endswith (s +:+ p) p = true.
Proof.
  unfold endswith. rewrite length_app.
  replace (String.length s + String.length p - String.length p) with (String.length s) by lia.
  rewrite substring_skip, String.eqb_refl, andb_true_r.
  apply Nat.leb_le. lia.
Qed.

Lemma lower_app (s t : string) : lower (s +:+ t) = lower s +:+ lower t.
Proof. induction s as [| a s IH]; simpl; [reflexivity | now rewrite IH]. Qed.

Lemma lower_ascii_not_upper (a : ascii) : is_upper (lower_ascii a) = false.
Proof. destruct a as [[] [] [] [] [] [] [] []]; reflexivity. Qed.

Lemma lower_no_upper (s : string) : no_upper (lower s) = true.
Proof.
  induction s as [| a s IH]; simpl; [reflexivity |].
  now rewrite lower_ascii_not_upper, IH.
Qed.

Lemma lower_fixed (s : string) : no_upper s = true -> lower s = s.
Proof.
  induction s as [| a s IH]; simpl; [reflexivity |].
  intros H. apply andb_prop in H as [H1 H2].
  unfold lower_ascii. apply negb_true_iff in H1. rewrite H1. now rewrite IH.
Qed.

Lemma lower_idempotent (s : string) : lower (lower s) = lower s.
Proof. apply lower_fixed, lower_no_upper. Qed.

Lemma app_longer (s t : string) : t <> "" -> s <> s +:+ t.
Proof.
  intros nonempty same. apply (f_equal String.length) in same.
  rewrite length_app in same. destruct t; [contradiction | simpl in same; lia].
Qed.

(** ** Storage names *)

(** The name both methods resolve ends in .db, whatever the case of the
    letters of an explicitly given suffix. *)
Lemma resolve_db_name_suffix (self : TGBFPlugin) (plugin db_name : option string) :
  endswith (lower (resolve_db_name self plugin db_name)) ".db" = true.
Proof.
  unfold resolve_db_name. destruct (given db_name).
  - destruct (endswith (lower (text_of db_name)) ".db") eqn:has; simpl.
    + exact has.
    + rewrite lower_app. apply endswith_app.
  - destruct (given plugin); rewrite lower_app; apply endswith_app.
Qed.

(** C7, as stated, fails: the explicitly given name Feedback.DB does not
    end with .db, and yet no suffix is appended to it. *)
Lemma C7_upper_case_suffix_kept :
  let self := plugin_with "Feedback" [] global_on [] in
  ~ (resolve_db_name self None (Some "Feedback.DB") = "Feedback.DB" +:+ ".db"
     <-> endswith "Feedback.DB" ".db" = false).
Proof. intros self [_ H]. specialize (H eq_refl). discriminate H. Qed.

(** C7, amended.  [execute_sql] and [table_exists] hand the path made of
    the data directory and the resolved file name to the method that does
    the work.  With no database name given, the file name is the given
    plugin name followed by .db, and the plugin's own name followed by .db
    when no plugin is given either.  A given database name gets .db
    appended if and only if its lower-cased form does not end with .db,
    and is used as it is otherwise.  In every case the lower-cased file
    name ends with .db. *)
Theorem C7_storage_file_name (E : env) (self : TGBFPlugin) (sql : option string)
    (args : list value) (table_name : value) (plugin db_name : option string) :
  let file := resolve_db_name self plugin db_name in
  execute_sql E self sql args plugin db_name
    = _get_database_content E self
        (path_join (get_dat_path E (name self)
                      (if given plugin then Some (lower (text_of plugin)) else None)) file)
        sql args
  /\ table_exists E self table_name plugin db_name
    = _database_table_exists E self
        (path_join (get_dat_path E (name self) (if given plugin then plugin else None)) file)
        table_name
  /\ (given db_name = false -> given plugin = true -> file = text_of plugin +:+ ".db")
  /\ (given db_name = false -> given plugin = false -> file = name self +:+ ".db")
  /\ (given db_name = true ->
      (file = text_of db_name +:+ ".db" <-> endswith (lower (text_of db_name)) ".db" = false)
      /\ (file = text_of db_name <-> endswith (lower (text_of db_name)) ".db" = true))
  /\ endswith (lower file) ".db" = true.
Proof.
  intros file. subst file.
  split; [unfold execute_sql, execute_sql_db_path; now destruct (given plugin) |].
  split; [unfold table_exists, table_exists_db_path; now destruct (given plugin) |].
  split; [intros no_name target; unfold resolve_db_name; now rewrite no_name, target |].
  split; [intros no_name no_target; unfold resolve_db_name; now rewrite no_name, no_target |].
  split; [| apply resolve_db_name_suffix].
  intros explicit. unfold resolve_db_name. rewrite explicit.
  destruct (endswith (lower (text_of db_name)) ".db"); simpl; split; split;
    intros same; try reflexivity; try discriminate; exfalso.
  - symmetry in same. now apply (app_longer (text_of db_name) ".db").
  - now apply (app_longer (text_of db_name) ".db").
Qed.

Lemma C7_storage_file_name_witness :
  let self := plugin_with "Feedback" [] global_on [] in
  resolve_db_name self None None = "feedback.db"
  /\ resolve_db_name self (Some "Usage") None = "Usage.db"
  /\ resolve_db_name self None (Some "archive") = "archive.db"
  /\ resolve_db_name self None (Some "Feedback.DB") = "Feedback.DB".
Proof.
  intros self.
  pose proof (C7_storage_file_name (calm []) self None [] JNull None None) as own.
  pose proof (C7_storage_file_name (calm []) self None [] JNull (Some "Usage") None) as other.
  pose proof (C7_storage_file_name (calm []) self None [] JNull None (Some "archive")) as bare.
  pose proof (C7_storage_file_name (calm []) self None [] JNull None (Some "Feedback.DB")) as upper.
  cbv zeta in own, other, bare, upper.
  destruct own as (_ & _ & _ & own & _).
  destruct other as (_ & _ & other & _).
  destruct bare as (_ & _ & _ & _ & bare & _).
  destruct upper as (_ & _ & _ & _ & upper & _).
  split; [exact (own eq_refl eq_refl) |].
  split; [exact (other eq_refl eq_refl) |].
  split; [exact (proj2 (proj1 (bare eq_refl)) eq_refl) |].
  exact (proj2 (proj2 (upper eq_refl)) eq_refl).
Defined.

(** ** Construction and the plugin's configuration file *)

Lemma lookup_made_dirs (t : gmap string node) (ps : list string) (q : string) :
  foldr (fun p t => <[p:=Dir]> t) t ps !! q
  = if decide (q ∈ ps) then Some Dir else t !! q.
Proof.
  induction ps as [| p ps IH]; cbn [foldr].
  - destruct (decide (q ∈ [])) as [H | _]; [now apply elem_of_nil in H | reflexivity].
  - rewrite lookup_insert, IH.
    destruct (decide (p = q)) as [-> | differ].
    + destruct (decide (q ∈ q :: ps)) as [_ | H]; [reflexivity |].
      exfalso. apply H. left.
    + destruct (decide (q ∈ ps)) as [member | absent];
        destruct (decide (q ∈ p :: ps)) as [member' | absent']; try reflexivity.
      * exfalso. apply absent'. now right.
      * exfalso. apply elem_of_cons in member' as [-> | member'];
          [now apply differ | now apply absent].
Qed.

Lemma existsb_false_elem (f : string -> bool) (ps : list string) (q : string) :
  existsb f ps = false -> q ∈ ps -> f q = false.
Proof.
  intros none member. apply list_elem_of_In in member.
  destruct (f q) eqn:holds; [| reflexivity].
  assert (existsb f ps = true) by (apply existsb_exists; now exists q). congruence.
Qed.

(** What a successful [os.makedirs] leaves: the directory exists, no
    file was touched, nothing was recorded. *)
Lemma makedirs_ok (E : env) (p : string) (w w' : world) :
  os_makedirs E p w = (Ok tt, w') ->
  is_dir (fs w') p = true
  /\ trace w' = trace w
  /\ (forall q, is_file (fs w') q = is_file (fs w) q)
  /\ (forall q, is_file (fs w) q = true -> fs w' !! q = fs w !! q)
  /\ (forall q, is_dir (fs w) q = true -> is_dir (fs w') q = true).
Proof.
  unfold os_makedirs. destruct (os_fault E (Makedirs p)); [discriminate |].
  destruct (String.eqb p ""); [discriminate |].
  destruct (existsb (is_file (fs w)) (ancestors p)) eqn:above; [discriminate |].
  destruct (is_file (fs w) p) eqn:leaf; [discriminate |].
  intros [= <-]. simpl.
  assert (free : forall q, q ∈ ancestors p ++ [p] -> is_file (fs w) q = false).
  { intros q member. apply elem_of_app in member as [member | member].
    - now apply (existsb_false_elem _ _ _ above).
    - apply list_elem_of_singleton in member. now subst q. }
  split; [| split; [reflexivity | split; [| split]]].
  - unfold is_dir. rewrite lookup_made_dirs.
    destruct (decide (p ∈ ancestors p ++ [p])) as [_ | absent]; [reflexivity |].
    exfalso. apply absent, elem_of_app. right. now apply list_elem_of_singleton.
  - intros q. unfold is_file at 1. rewrite lookup_made_dirs.
    destruct (decide (q ∈ ancestors p ++ [p])) as [member | _];
      [symmetry; now apply free | reflexivity].
  - intros q file. rewrite lookup_made_dirs.
    destruct (decide (q ∈ ancestors p ++ [p])) as [member | _]; [| reflexivity].
    apply free in member. congruence.
  - intros q dir. unfold is_dir. rewrite lookup_made_dirs.
    destruct (decide (q ∈ ancestors p ++ [p])); [reflexivity | exact dir].
Qed.

Lemma init_plugin_cfg_ok (E : env) (self_name : string) (w w' : world)
    (cm : ConfigManager.t) :
  let cfg_fold := get_cfg_path E self_name None in
  let cfg_path := path_join cfg_fold (self_name +:+ ".json") in
  _init_plugin_cfg E self_name w = (Ok cm, w') ->
  ConfigManager.cfg_file cm = cfg_path
  /\ ConfigManager.document cm = load_document E (fs w') cfg_path
  /\ is_file (fs w') cfg_path = true
  /\ is_dir (fs w') cfg_fold = true
  /\ trace w' = trace w
  /\ (is_file (fs w) cfg_path = false -> fs w' !! cfg_path = Some (File "{}"))
  /\ (is_file (fs w) cfg_path = true -> fs w' !! cfg_path = fs w !! cfg_path).
Proof.
  intros cfg_fold cfg_path. unfold _init_plugin_cfg.
  fold cfg_fold. fold cfg_path.
  unfold mbind at 1, M_bind at 1.
  destruct (os_makedirs E cfg_fold w) as [[[] | e] w1] eqn:made; [| discriminate].
  apply makedirs_ok in made as (dir & same_trace & files & kept & _).
  unfold mbind at 1, M_bind at 1. unfold mbind at 1, M_bind at 1.
  rewrite files.
  destruct (is_file (fs w) cfg_path) eqn:present; cbn [negb].
  - unfold mret at 1, M_ret at 1, ConfigManager_new. intros [= <- <-]. simpl.
    repeat split; try assumption; try discriminate.
    + now rewrite files.
    + intros _. now apply kept.
  - unfold write_text. destruct (os_fault E (OpenWrite cfg_path)); [discriminate |].
    destruct (is_dir (fs w1) cfg_path) eqn:blocked; [discriminate |].
    unfold ConfigManager_new. intros [= <- <-]. simpl.
    assert (differ : cfg_path <> cfg_fold) by (intros same; congruence).
    repeat split; try assumption; try discriminate.
    + unfold is_file. now rewrite lookup_insert_eq.
    + unfold is_dir. rewrite lookup_insert_ne by exact differ. exact dir.
    + intros _. apply lookup_insert_eq.
Qed.

Lemma init_ok (E : env) (cls : string) (tg_bot : TelegramBot) (w w' : world)
    (self : TGBFPlugin) :
  __init__ E cls tg_bot w = (Ok self, w') ->
  name self = lower cls
  /\ class_name self = cls
  /\ global_config self = bot_config tg_bot
  /\ _init_plugin_cfg E (lower cls) w = (Ok (config self), w').
Proof.
  unfold __init__. unfold mbind, M_bind.
  destruct (_init_plugin_cfg E (lower cls) w) as [[cfg | e] w1]; [| discriminate].
  intros [= <- <-]. now repeat split.
Qed.

(** The conditions under which nothing stands in the way of
    [_init_plugin_cfg]: the two calls are not refused, no file sits where
    the configuration directory or one of its ancestors has to be, and
    the file path is neither a directory nor one of those directories. *)
Lemma init_plugin_cfg_succeeds (E : env) (self_name : string) (w : world) :
  let cfg_fold := get_cfg_path E self_name None in
  let cfg_path := path_join cfg_fold (self_name +:+ ".json") in
  os_fault E (Makedirs cfg_fold) = None ->
  os_fault E (OpenWrite cfg_path) = None ->
  cfg_fold <> "" ->
  existsb (is_file (fs w)) (ancestors cfg_fold ++ [cfg_fold]) = false ->
  is_dir (fs w) cfg_path = false ->
  cfg_path ∉ ancestors cfg_fold ++ [cfg_fold] ->
  exists cm w', _init_plugin_cfg E self_name w = (Ok cm, w').
Proof.
  intros cfg_fold cfg_path allowed writable named free not_dir apart.
  unfold _init_plugin_cfg. fold cfg_fold. fold cfg_path.
  rewrite existsb_app in free. apply orb_false_elim in free as [above leaf].
  simpl in leaf. rewrite orb_false_r in leaf.
  assert (made : os_makedirs E cfg_fold w
                 = (Ok tt, World (foldr (fun q t => <[q:=Dir]> t) (fs w)
                                    (ancestors cfg_fold ++ [cfg_fold])) (trace w))).
  { unfold os_makedirs. rewrite allowed, above, leaf.
    destruct (String.eqb_spec cfg_fold ""); [contradiction | reflexivity]. }
  rewrite (bind_ok _ _ _ _ _ made).
  unfold mbind at 1, M_bind at 1. cbn [fs].
  destruct (negb _); unfold mbind, M_bind.
  - unfold write_text. rewrite writable. cbn [fs].
    unfold is_dir. rewrite lookup_made_dirs.
    destruct (decide (cfg_path ∈ ancestors cfg_fold ++ [cfg_fold])); [contradiction |].
    unfold is_dir in not_dir. rewrite not_dir.
    unfold ConfigManager_new. now eexists _, _.
  - unfold mret, M_ret, ConfigManager_new. now eexists _, _.
Qed.

(** C8. Whenever the construction of a plugin returns, its configuration
    file exists at tgbf/plugins/<name>/config/<name>.json and the
    configuration directory exists.  If the file was absent before, it now
    holds the empty document {}; if it was there, it is untouched.  The
    scope is bound to the file tree as it is after the file was written.
    The work is done inside the constructor: it records no event, and a
    lookup in the scope is a pure function that creates nothing.  The
    constructor does return when the two calls are not refused, no file
    blocks the directory path, and the file path is not a directory. *)
Theorem C8_config_file_created (E : env) (cls : string) (tg_bot : TelegramBot) (w : world) :
  let cfg_fold := get_cfg_path E (lower cls) None in
  let cfg_path := path_join cfg_fold (lower cls +:+ ".json") in
  (forall (self : TGBFPlugin) (w' : world),
     __init__ E cls tg_bot w = (Ok self, w') ->
     ConfigManager.cfg_file (config self) = cfg_path
     /\ is_file (fs w') cfg_path = true
     /\ is_dir (fs w') cfg_fold = true
     /\ (is_file (fs w) cfg_path = false -> fs w' !! cfg_path = Some (File "{}"))
     /\ (is_file (fs w) cfg_path = true -> fs w' !! cfg_path = fs w !! cfg_path)
     /\ ConfigManager.document (config self) = load_document E (fs w') cfg_path
     /\ trace w' = trace w)
  /\
  (os_fault E (Makedirs cfg_fold) = None ->
   os_fault E (OpenWrite cfg_path) = None ->
   cfg_fold <> "" ->
   existsb (is_file (fs w)) (ancestors cfg_fold ++ [cfg_fold]) = false ->
   is_dir (fs w) cfg_path = false ->
   cfg_path ∉ ancestors cfg_fold ++ [cfg_fold] ->
   exists (self : TGBFPlugin) (w' : world), __init__ E cls tg_bot w = (Ok self, w')).
Proof.
  intros cfg_fold cfg_path. split.
  - intros self w' built. apply init_ok in built as (_ & _ & _ & built).
    apply init_plugin_cfg_ok in built as (file & doc & present & dir & quiet & fresh & kept).
    now repeat split.
  - intros allowed writable named free not_dir apart.
    destruct (init_plugin_cfg_succeeds E (lower cls) w allowed writable named free not_dir apart)
      as (cm & w' & built).
    unfold __init__. rewrite (bind_ok _ _ _ _ _ built). now eexists _, _.
Qed.

Lemma C8_config_file_created_witness :
  let tg_bot := Bot global_on [] in
  exists (self : TGBFPlugin) (w' : world),
    __init__ (calm []) "About" tg_bot empty_world = (Ok self, w')
    /\ fs w' !! "tgbf/plugins/about/config/about.json" = Some (File "{}")
    /\ is_dir (fs w') "tgbf/plugins/about/config" = true.
Proof.
  intros tg_bot.
  destruct (C8_config_file_created (calm []) "About" tg_bot empty_world) as [after returns].
  destruct returns as (self & w' & built).
  - reflexivity.
  - reflexivity.
  - discriminate.
  - reflexivity.
  - reflexivity.
  - vm_compute. intros H. repeat (apply elem_of_cons in H as [H | H]; [discriminate |]).
    now apply elem_of_nil in H.
  - exists self, w'. split; [exact built |].
    destruct (after self w' built) as (_ & _ & dir & fresh & _).
    split; [now apply fresh | exact dir].
Defined.

(** ** Name and handle *)

(** C9. A plugin built from the class [cls] has the lower-cased class name
    as its name.  Its handle is its name when the configuration has no
    handle (the lookup yields None, or an empty value), and is the
    lower-cased configured string when there is one. *)
Theorem C9_name_and_handle (E : env) (cls : string) (tg_bot : TelegramBot)
    (w w' : world) (self : TGBFPlugin) :
  __init__ E cls tg_bot w = (Ok self, w') ->
  name self = lower cls
  /\ (ConfigManager.get (config self) ["handle"] = JNull -> handle self = Ok (name self))
  /\ (truthy (ConfigManager.get (config self) ["handle"]) = false ->
      handle self = Ok (name self))
  /\ (forall h : string,
        ConfigManager.get (config self) ["handle"] = JStr h -> h <> "" ->
        handle self = Ok (lower h)).
Proof.
  intros built. apply init_ok in built as (named & _).
  split; [exact named |]. unfold handle. split; [| split].
  - intros absent. now rewrite absent.
  - intros empty. now rewrite empty.
  - intros h configured nonempty. rewrite configured. simpl.
    now destruct (String.eqb_spec h "").
Qed.

Lemma C9_name_and_handle_witness :
  let tg_bot := Bot global_on [] in
  exists (self : TGBFPlugin) (w' : world),
    __init__ (calm []) "About" tg_bot empty_world = (Ok self, w')
    /\ name self = "about"
    /\ handle self = Ok "about".
Proof.
  intros tg_bot. eexists _, _. split; [reflexivity |].
  destruct (C9_name_and_handle (calm []) "About" tg_bot empty_world _ _ eq_refl)
    as (named & absent & _).
  split; [exact named | exact (absent eq_refl)].
Defined.

(** C10. For a plugin built by the constructor: every string the handle
    property returns has no upper-case letter and is left as it is by
    lower-casing; a configured non-empty handle is returned lower-cased,
    never as written; and the property does return a string whenever the
    configured handle, if there is one, is a string. *)
Theorem C10_handle_lower_case (E : env) (cls : string) (tg_bot : TelegramBot)
    (w w' : world) (self : TGBFPlugin) :
  __init__ E cls tg_bot w = (Ok self, w') ->
  (forall h : string, handle self = Ok h -> no_upper h = true /\ lower h = h)
  /\ (forall s : string,
        ConfigManager.get (config self) ["handle"] = JStr s -> s <> "" ->
        handle self = Ok (lower s))
  /\ (ConfigManager.get (config self) ["handle"] = JNull
      \/ (exists s, ConfigManager.get (config self) ["handle"] = JStr s) ->
      exists h : string, handle self = Ok h).
Proof.
  intros built. apply init_ok in built as (named & _).
  unfold handle. split; [| split].
  - intros h. destruct (truthy (ConfigManager.get (config self) ["handle"])).
    + destruct (ConfigManager.get (config self) ["handle"]); simpl; try discriminate.
      intros [= <-]. split; [apply lower_no_upper | apply lower_idempotent].
    + rewrite named. intros [= <-]. split; [apply lower_no_upper | apply lower_idempotent].
  - intros s configured nonempty. rewrite configured. simpl.
    now destruct (String.eqb_spec s "").
  - intros [absent | [s configured]].
    + rewrite absent. simpl. now eexists.
    + rewrite configured. simpl. destruct (negb (String.eqb s "")); now eexists.
Qed.

(** A configuration file that sets the handle to a mixed-case word. *)
Lemma C10_handle_lower_case_witness :
  let tg_bot := Bot global_on [] in
  let E := Env layout "/srv/bot" (fun _ => None)
               (fun _ => Some (JObj [("handle", JStr "InFo")]))
               (fun _ => None) (fun _ _ _ => Ok []) (fun _ => None) (fun _ => None)
               (fun _ => None) None in
  let w := World {["tgbf/plugins/about/config/about.json" := File "{ handle: InFo }"]} [] in
  exists (self : TGBFPlugin) (w' : world),
    __init__ E "About" tg_bot w = (Ok self, w')
    /\ ConfigManager.get (config self) ["handle"] = JStr "InFo"
    /\ handle self = Ok "info".
Proof.
  intros tg_bot E w. eexists _, _. split; [reflexivity |]. split; [reflexivity |].
  destruct (C10_handle_lower_case E "About" tg_bot w _ _ eq_refl) as (_ & lowered & _).
  apply (lowered "InFo"); [reflexivity | discriminate].
Defined.

(** * Further properties of the code *)

(** ** Notification *)

(** X1. [notify] hands its input back.  With admin.notify_on_error off
    it does nothing else.  With it on and a list of admin ids, every
    admin is tried once, in the order of the list: the message is sent,
    or, when sending to that admin fails, the failure is logged and the
    remaining admins are still tried.  The file tree is never touched. *)
Theorem notify_reaches_every_admin (E : env) (self : TGBFPlugin) (m : msg) (w : world) :
  (truthy (ConfigManager.get (global_config self) ["admin"; "notify_on_error"]) = false ->
   notify E self m w = (Ok m, w))
  /\
  (forall admins : list value,
     truthy (ConfigManager.get (global_config self) ["admin"; "notify_on_error"]) = true ->
     py_iter (ConfigManager.get (global_config self) ["admin"; "ids"]) = Some admins ->
     notify E self m w = (Ok m, World (fs w) (trace w ++ map (attempt E m) admins))).
Proof.
  split.
  - intros off. unfold notify. now rewrite off.
  - intros admins on ids. unfold notify. rewrite on, ids.
    now rewrite (bind_ok _ _ _ _ _ (notify_each_trace E admins m w)).
Qed.

Lemma notify_reaches_every_admin_witness :
  let global := ConfigManager.New "config/config.json"
                  (JObj [("admin", JObj [("ids", JList [JNum 1; JNum 2; JNum 3]);
                                         ("notify_on_error", JBool true)])]) in
  let self := plugin_with "About" [] global [] in
  let E := Env layout "/srv/bot" (fun _ => None) (fun _ => None) (fun _ => None)
               (fun _ _ _ => Ok []) (fun _ => None) (fun _ => None)
               (fun admin => if eq_int admin 2 then Some (Exn "Unauthorized" "blocked") else None)
               None in
  notify E self (MsgText "disk full") empty_world
  = (Ok (MsgText "disk full"),
     World ∅ [ESendMessage (JNum 1) (MsgAdminNotification (MsgText "disk full"));
              ELogError (MsgNotifyFailed (JNum 2) (Exn "Unauthorized" "blocked"));
              ESendMessage (JNum 3) (MsgAdminNotification (MsgText "disk full"))]).
Proof.
  intros global self E.
  exact (proj2 (notify_reaches_every_admin E self (MsgText "disk full") empty_world)
           [JNum 1; JNum 2; JNum 3] eq_refl eq_refl).
Defined.

(** ** Resources *)

Lemma read_text_world (E : env) (p : string) (w : world) : snd (read_text E p w) = w.
Proof.
  unfold read_text. destruct (os_fault E (OpenRead p)); [reflexivity |].
  now destruct (fs w !! p) as [[] |].
Qed.

(** X2. [get_resource] on the file <resources of the plugin>/<filename>:
    a file that is read is returned as it is and the world stays as it
    was; a file that cannot be read gives None, and then (the admin
    settings letting [notify] run) the error is logged first and the file
    tree is left alone. *)
Theorem get_resource_outcomes (E : env) (self : TGBFPlugin) (filename : string)
    (plugin : option string) (w : world) :
  let path := path_join (get_res_path E (name self) plugin) filename in
  (forall content : string,
     os_fault E (OpenRead path) = None ->
     fs w !! path = Some (File content) ->
     get_resource E self filename plugin w = (Ok (Some content), w))
  /\
  (forall e : exn,
     fst (read_text E path w) = Raise e ->
     admins_iterable self ->
     exists (w' : world) (evs : list event),
       get_resource E self filename plugin w = (Ok None, w')
       /\ fs w' = fs w
       /\ trace w' = trace w ++ ELogError (MsgExn e) :: evs).
Proof.
  intros path. split.
  - intros content allowed present.
    unfold get_resource, _get_resource_content, try_except. fold path.
    unfold mbind, M_bind, read_text. now rewrite allowed, present.
  - intros e broken wf.
    assert (read : read_text E path w = (Raise e, w)).
    { rewrite <- (read_text_world E path w) at 2. rewrite <- broken.
      now destruct (read_text E path w). }
    destruct (resource_read_failure E self path w w e wf read) as (w' & R & F & evs & T).
    exists w', evs. split; [exact R |]. split; [exact F |].
    rewrite T. simpl. now rewrite <- app_assoc.
Qed.

Lemma get_resource_outcomes_witness :
  let about := plugin_with "About" [] global_on [] in
  let path := "tgbf/plugins/about/resources/info.md" in
  let w := World {[path := File "A bot."]} [] in
  get_resource (calm []) about "info.md" None w = (Ok (Some "A bot."), w)
  /\ exists (w' : world) (evs : list event),
       get_resource (calm []) about "info.md" None empty_world = (Ok None, w')
       /\ fs w' = fs empty_world
       /\ trace w' = trace empty_world ++ ELogError (MsgExn (Exn "FileNotFoundError" path)) :: evs.
Proof.
  intros about path w. split.
  - apply (proj1 (get_resource_outcomes (calm []) about "info.md" None w) "A bot.");
      reflexivity.
  - apply (proj2 (get_resource_outcomes (calm []) about "info.md" None empty_world)
             (Exn "FileNotFoundError" path)); [reflexivity |].
    intros _. discriminate.
Defined.

(** X3. When notifications are switched on and admin.ids is not
    something a loop can run over (the key is absent, say), a resource
    that cannot be read makes [get_resource] raise TypeError to its
    caller, after the read error was logged. *)
Theorem get_resource_raises_without_admins (E : env) (self : TGBFPlugin) (filename : string)
    (plugin : option string) (w : world) (e : exn) :
  let path := path_join (get_res_path E (name self) plugin) filename in
  fst (read_text E path w) = Raise e ->
  truthy (ConfigManager.get (global_config self) ["admin"; "notify_on_error"]) = true ->
  py_iter (ConfigManager.get (global_config self) ["admin"; "ids"]) = None ->
  get_resource E self filename plugin w
  = (Raise (NotIterable (type_name (ConfigManager.get (global_config self) ["admin"; "ids"]))),
     World (fs w) (trace w ++ [ELogError (MsgExn e)])).
Proof.
  intros path broken on ids.
  assert (read : read_text E path w = (Raise e, w)).
  { rewrite <- (read_text_world E path w) at 2. rewrite <- broken.
    now destruct (read_text E path w). }
  unfold get_resource, _get_resource_content, try_except. fold path.
  rewrite (bind_raise _ _ _ _ _ read).
  unfold log_and_notify, logging_error, notify.
  unfold mbind, M_bind, emit. now rewrite on, ids.
Qed.

Lemma get_resource_raises_without_admins_witness :
  let global := ConfigManager.New "config/config.json"
                  (JObj [("admin", JObj [("notify_on_error", JBool true)])]) in
  let about := plugin_with "About" [] global [] in
  get_resource (calm []) about "info.md" None empty_world
  = (Raise (Exn "TypeError" "'NoneType' object is not iterable"),
     World ∅ [ELogError (MsgExn (Exn "FileNotFoundError"
                                     "tgbf/plugins/about/resources/info.md"))]).
Proof.
  intros global about.
  exact (get_resource_raises_without_admins (calm []) about "info.md" None empty_world
           (Exn "FileNotFoundError" "tgbf/plugins/about/resources/info.md")
           eq_refl eq_refl eq_refl).
Defined.

(** X4. [get_usage] never returns a usage text: on every path that has a
    text to return it first calls [self.handle()], the call of a string.
    Its outcome is None or an exception. *)
Theorem get_usage_returns_no_text (E : env) (self : TGBFPlugin)
    (replace_with : option (list (string * string))) (w : world) :
  (exists w' : world, get_usage E self replace_with w = (Ok None, w'))
  \/ (exists (e : exn) (w' : world), get_usage E self replace_with w = (Raise e, w')).
Proof.
  unfold get_usage.
  destruct (get_resource E self (name self +:+ ".md") None w) as [[usage | e] w1] eqn:R.
  - rewrite (bind_ok _ _ _ _ _ R). destruct (given usage).
    + right. unfold mbind, M_bind, lift, call_str, raise.
      destruct (handle self) as [h | e]; eexists _, _; reflexivity.
    + left. eexists. reflexivity.
  - rewrite (bind_raise _ _ _ _ _ R). right. eexists _, _. reflexivity.
Qed.

(** ** The dependency and owner filters *)

(** X5. The dependency filter has two outcomes and never denies: with a
    non-empty list of dependencies it raises AttributeError and leaves
    the world as it was; with any other setting (absent, empty, not a
    list) it logs that the dependencies are not a list and runs the
    handler.  It sends no reply of its own in either case. *)
Theorem dependency_outcomes (E : env) (func : M value) (self : TGBFPlugin)
    (update : Update) (w : world) :
  ((exists d ds, ConfigManager.get (config self) ["dependencies"] = JList (d :: ds))
   /\ dependency E func self update w
      = (Raise (AttributeError (class_name self) "get_plugins"), w))
  \/
  ((forall d ds, ConfigManager.get (config self) ["dependencies"] <> JList (d :: ds))
   /\ dependency E func self update w
      = func (World (fs w) (trace w ++ [ELogError (MsgDependenciesNotList (name self))]))).
Proof.
  unfold dependency.
  destruct (ConfigManager.get (config self) ["dependencies"]) as [| b | n | s | [| d ds] | kv];
    simpl; rewrite ?andb_false_r; try (right; split; [discriminate | reflexivity]).
  left. split; [now exists d, ds | reflexivity].
Qed.

(** X6. The owner filter is silent: whatever the settings and the update,
    the wrapped handler either is the handler, or returns None with the
    world as it was, or (for an update without a user, the owner setting
    not being false) raises AttributeError with the world as it was. *)
Theorem owner_is_silent (func : M value) (self : TGBFPlugin) (update : Update) (w : world) :
  owner func self update w = func w
  \/ owner func self update w = (Ok JNull, w)
  \/ (effective_user update = None
      /\ eq_False (ConfigManager.get (config self) ["owner"]) = false
      /\ owner func self update w = (Raise (AttributeError "NoneType" "id"), w)).
Proof.
  unfold owner. destruct (eq_False (ConfigManager.get (config self) ["owner"])); [now left |].
  destruct (effective_user update) as [uid |]; [| now right; right].
  unfold mbind, M_bind, mret, M_ret.
  destruct (truthy _ && isinstance_list _ && int_in uid _); [now left |].
  destruct (truthy _ && isinstance_list _ && int_in uid _); [now left | now right; left].
Qed.

(** ** Storage: what a call returns and what it leaves behind *)

Lemma world_eta (w : world) : World (fs w) (trace w ++ []) = w.
Proof. rewrite app_nil_r. now destruct w. Qed.

Lemma no_connect_app (xs ys : list event) :
  no_connect xs -> no_connect ys -> no_connect (xs ++ ys).
Proof.
  intros X Y p t member. apply in_app_or in member as [member | member];
    [now apply (X p t) | now apply (Y p t)].
Qed.

Lemma no_connect_nil : no_connect [].
Proof. intros p t []. Qed.

Lemma notify_grows (E : env) (self : TGBFPlugin) (m : msg) (w : world) :
  exists evs, snd (notify E self m w) = World (fs w) (trace w ++ evs) /\ no_connect evs.
Proof.
  unfold notify.
  destruct (truthy (ConfigManager.get (global_config self) ["admin"; "notify_on_error"])).
  - destruct (py_iter (ConfigManager.get (global_config self) ["admin"; "ids"]))
      as [admins |].
    + exists (map (attempt E m) admins). split.
      * now rewrite (bind_ok _ _ _ _ _ (notify_each_trace E admins m w)).
      * intros p t member. apply in_map_iff in member as (admin & same & _).
        unfold attempt in same. now destruct (send_fault E admin).
    + exists []. split; [symmetry; apply world_eta | apply no_connect_nil].
  - exists []. split; [symmetry; apply world_eta | apply no_connect_nil].
Qed.

Lemma log_and_notify_grows (E : env) (self : TGBFPlugin) (e : exn) (w : world) :
  exists evs,
    snd (log_and_notify E self e w) = World (fs w) (trace w ++ ELogError (MsgExn e) :: evs)
    /\ no_connect evs.
Proof.
  destruct (notify_grows E self (MsgExn e) (World (fs w) (trace w ++ [ELogError (MsgExn e)])))
    as (evs & grown & quiet).
  exists evs. split; [| exact quiet].
  unfold log_and_notify, logging_error. unfold mbind at 1, M_bind at 1, emit at 1.
  simpl in grown. rewrite <- app_assoc in grown. simpl in grown. rewrite <- grown.
  unfold mbind, M_bind.
  now destruct (notify E self (MsgExn e) _) as [[] ?].
Qed.

(** The statements run on an open connection: their outcome is the first
    error among execute, commit and fetchall, and they record what ran. *)
Lemma statements_run (E : env) (db_path sql : string) (args : list value) (w : world) :
  (rows ← cur_execute E db_path (Some sql) args;
   con_commit E db_path;;
   cur_fetchall E db_path rows) w
  = match statement_error E db_path sql args with
    | None =>
        (Ok (JList (map JList (rows_of E db_path sql args))),
         World (fs w) (trace w ++ [EExecute db_path (Some sql) args; ECommit db_path]))
    | Some e =>
        (Raise e,
         match execute_result E db_path sql args with
         | Raise _ => w
         | Ok _ =>
             match commit_fault E db_path with
             | Some _ => World (fs w) (trace w ++ [EExecute db_path (Some sql) args])
             | None =>
                 World (fs w) (trace w ++ [EExecute db_path (Some sql) args; ECommit db_path])
             end
         end)
    end.
Proof.
  unfold statement_error, rows_of, cur_execute, con_commit, cur_fetchall.
  unfold mbind, M_bind, raise, emit, mret, M_ret.
  destruct (execute_result E db_path sql args) as [rows | e]; [| reflexivity]. simpl.
  destruct (commit_fault E db_path) as [e |]; [reflexivity |]. simpl.
  rewrite <- app_assoc. simpl.
  now destruct (fetch_fault E db_path).
Qed.

Lemma connect_and_run_opened (E : env) (self : TGBFPlugin) (db_path : string)
    (db_timeout : value) (sql : string) (args : list value) (w : world) :
  connect_fault E db_path = None ->
  connect_and_run E self db_path db_timeout (Some sql) args w
  = match (rows ← cur_execute E db_path (Some sql) args;
           con_commit E db_path;;
           cur_fetchall E db_path rows)
            (World (fs w) (trace w ++ [EConnect db_path (Some db_timeout)])) with
    | (Ok rows, w3) =>
        (Ok (Res (Some true) rows),
         World (fs w3) (trace w3 ++ [ECursorClose db_path; EConClose db_path]))
    | (Raise e, w3) =>
        (Ok (failed e),
         World (fs (snd (log_and_notify E self e w3)))
               (trace (snd (log_and_notify E self e w3))
                ++ [ECursorClose db_path; EConClose db_path]))
    end.
Proof.
  intros opened. unfold connect_and_run, sqlite3_connect. rewrite opened. unfold emit at 1.
  destruct ((cur_execute E db_path (Some sql) args ≫= _) _) as [[rows | e] w3];
    unfold mbind, M_bind, emit; simpl; now rewrite <- app_assoc.
Qed.

(** X7. A statement that runs: with storage on, the data directory
    made, the connection open and no error at execute, commit or
    fetchall, [_get_database_content] returns success True with the rows
    the statement yields, in their order (the empty list for no row), logs
    nothing, and closes the cursor and the connection. *)
Theorem database_content_success (E : env) (self : TGBFPlugin) (db_path sql : string)
    (args : list value) (w w1 : world) :
  truthy (ConfigManager.get (global_config self) ["database"; "use_db"]) = true ->
  os_makedirs E (dirname db_path) w = (Ok tt, w1) ->
  connect_fault E db_path = None ->
  statement_error E db_path sql args = None ->
  let timeout := ConfigManager.get (global_config self) ["database"; "timeout"] in
  _get_database_content E self db_path (Some sql) args w
  = (Ok (Res (Some true) (JList (map JList (rows_of E db_path sql args)))),
     World (fs w1)
           (trace w ++ [EConnect db_path (Some (if truthy timeout then timeout else JNum 5));
                        EExecute db_path (Some sql) args;
                        ECommit db_path;
                        ECursorClose db_path;
                        EConClose db_path])).
Proof.
  intros on made opened clean timeout.
  pose proof (makedirs_ok E _ _ _ made) as (_ & same & _).
  unfold _get_database_content. rewrite on. cbn [negb].
  unfold mbind at 1, M_bind at 1, try_except. cbv beta.
  rewrite (bind_ok _ _ _ _ _ made). unfold mret at 1, M_ret at 1.
  rewrite (connect_and_run_opened E self db_path _ sql args w1 opened).
  rewrite statements_run, clean. simpl. rewrite same.
  now rewrite <- !app_assoc.
Qed.

Lemma database_content_success_witness :
  let self := plugin_with "Feedback" [] global_on [] in
  let db_path := "tgbf/plugins/feedback/data/feedback.db" in
  exists w1 : world,
    execute_sql (calm []) self (Some "DELETE FROM feedback") [] None None empty_world
    = (Ok (Res (Some true) (JList [])),
       World (fs w1) [EConnect db_path (Some (JNum 5));
                      EExecute db_path (Some "DELETE FROM feedback") [];
                      ECommit db_path;
                      ECursorClose db_path;
                      EConClose db_path])
    /\ is_dir (fs w1) "tgbf/plugins/feedback/data" = true.
Proof.
  intros self db_path. eexists. split.
  - exact (database_content_success (calm []) self db_path "DELETE FROM feedback" []
             empty_world _ eq_refl eq_refl eq_refl eq_refl).
  - reflexivity.
Defined.

(** X8. A statement that fails: with storage on, the data directory made
    and the connection open, the first error among execute, commit and
    fetchall is returned as success False with the text of the error; the
    error is logged, the file tree is as the directory step left it, and
    the cursor and the connection are closed at the end, whether or not
    the admins could be notified. *)
Theorem database_content_failure (E : env) (self : TGBFPlugin) (db_path sql : string)
    (args : list value) (w w1 : world) (e : exn) :
  truthy (ConfigManager.get (global_config self) ["database"; "use_db"]) = true ->
  os_makedirs E (dirname db_path) w = (Ok tt, w1) ->
  connect_fault E db_path = None ->
  statement_error E db_path sql args = Some e ->
  exists (w' : world) (evs : list event),
    _get_database_content E self db_path (Some sql) args w
      = (Ok (Res (Some false) (JStr (exn_text e))), w')
    /\ fs w' = fs w1
    /\ trace w' = trace w ++ evs ++ [ECursorClose db_path; EConClose db_path]
    /\ In (ELogError (MsgExn e)) evs.
Proof.
  intros on made opened broken.
  pose proof (makedirs_ok E _ _ _ made) as (_ & same & _).
  unfold _get_database_content. rewrite on. cbn [negb].
  unfold mbind at 1, M_bind at 1, try_except. cbv beta.
  rewrite (bind_ok _ _ _ _ _ made). unfold mret at 1, M_ret at 1.
  rewrite (connect_and_run_opened E self db_path _ sql args w1 opened).
  rewrite statements_run, broken.
  match goal with
  | |- context [log_and_notify E self e ?x] => remember x as w3 eqn:reached
  end.
  assert (tree : fs w3 = fs w1).
  { subst w3. destruct (execute_result E db_path sql args);
      [destruct (commit_fault E db_path) |]; reflexivity. }
  assert (prefix : exists pre, trace w3 = trace w ++ pre).
  { subst w3. rewrite <- same.
    destruct (execute_result E db_path sql args);
      [destruct (commit_fault E db_path) |]; simpl;
      rewrite <- ?app_assoc; eexists; reflexivity. }
  destruct prefix as (pre & prefix).
  destruct (log_and_notify_grows E self e w3) as (evs & grown & _).
  rewrite grown. cbn [fs trace]. rewrite tree, prefix.
  eexists _, (pre ++ ELogError (MsgExn e) :: evs).
  split; [reflexivity |]. split; [reflexivity |]. split.
  - cbn [trace]. now rewrite <- !app_assoc.
  - apply in_or_app. right. now left.
Qed.

Lemma database_content_failure_witness :
  let self := plugin_with "Feedback" [] global_on [] in
  let e := Exn "DatabaseError" "file is not a database" in
  exists (w' : world) (evs : list event),
    execute_sql corrupt self (Some "SELECT 1") [] None None empty_world
      = (Ok (Res (Some false) (JStr "file is not a database")), w')
    /\ trace w' = evs ++ [ECursorClose "tgbf/plugins/feedback/data/feedback.db";
                          EConClose "tgbf/plugins/feedback/data/feedback.db"]
    /\ In (ELogError (MsgExn e)) evs.
Proof.
  intros self e.
  destruct (database_content_failure corrupt self "tgbf/plugins/feedback/data/feedback.db"
              "SELECT 1" [] empty_world _ e eq_refl eq_refl eq_refl eq_refl)
    as (w' & evs & returned & _ & closed & logged).
  now exists w', evs.
Defined.

(** The shape of a result: success True with a list of rows, or success
    False with a text. *)
Lemma connect_and_run_structured (E : env) (self : TGBFPlugin) (db_path : string)
    (db_timeout : value) (sql : option string) (args : list value) (w : world) :
  exists (r : result) (w' : world),
    connect_and_run E self db_path db_timeout sql args w = (Ok r, w')
    /\ ((success r = Some true /\ exists rows, data r = JList rows)
        \/ (success r = Some false /\ exists text, data r = JStr text)).
Proof.
  unfold connect_and_run.
  destruct (sqlite3_connect E db_path _ w) as [[[] | e] w2].
  - destruct ((cur_execute E db_path sql args ≫= _) w2) as [[v | e] w3] eqn:ran.
    + eexists _, _. split; [reflexivity |]. left. split; [reflexivity |]. simpl.
      unfold mbind, M_bind, cur_execute, con_commit, cur_fetchall, raise, emit, mret, M_ret
        in ran.
      destruct sql as [s |]; [| discriminate].
      destruct (execute_result E db_path s args); [| discriminate]. simpl in ran.
      destruct (commit_fault E db_path); [discriminate |]. simpl in ran.
      destruct (fetch_fault E db_path); [discriminate |].
      injection ran as <- _. now eexists.
    + eexists _, _. split; [reflexivity |]. right. split; [reflexivity |]. now eexists.
  - eexists _, _. split; [reflexivity |]. right. split; [reflexivity |]. now eexists.
Qed.

(** X9. Storage errors stay inside: with admin settings that let [notify]
    run, [_get_database_content] returns for every path, statement and
    arguments, and raises nothing.  What it returns is either success
    True with a list of rows or success False with a text; the success
    entry is never left at None, and a failure never carries None as its
    data. *)
Theorem database_content_structured (E : env) (self : TGBFPlugin) (db_path : string)
    (sql : option string) (args : list value) (w : world) :
  admins_iterable self ->
  exists (r : result) (w' : world),
    _get_database_content E self db_path sql args w = (Ok r, w')
    /\ ((success r = Some true /\ exists rows, data r = JList rows)
        \/ (success r = Some false /\ exists text, data r = JStr text)).
Proof.
  intros wf. unfold _get_database_content.
  destruct (negb _).
  - eexists _, _. split; [reflexivity |]. right. split; [reflexivity |]. now eexists.
  - unfold mbind at 1, M_bind at 1, try_except.
    destruct ((os_makedirs E (dirname db_path) ≫= λ _ : (), mret (Res None JNull)) w)
      as [[r | e] w1].
    + apply connect_and_run_structured.
    + destruct (log_and_notify_returns E self e w1 wf) as [w2 [R _]].
      rewrite (bind_ok _ _ _ _ _ R). apply connect_and_run_structured.
Qed.

Lemma database_content_structured_witness :
  let self := plugin_with "Feedback" [] global_on [] in
  exists (r : result) (w' : world),
    execute_sql corrupt self None [] None None empty_world = (Ok r, w')
    /\ ((success r = Some true /\ exists rows, data r = JList rows)
        \/ (success r = Some false /\ exists text, data r = JStr text)).
Proof.
  intros self.
  apply (database_content_structured corrupt self
           (execute_sql_db_path corrupt self None None) None [] empty_world).
  intros _. discriminate.
Defined.




(** ** Existence of a table, continued *)

(** X11. [table_exists] does not consult database.use_db (nor any other
    setting but the admin settings [notify] reads): two plugins of the
    same name whose global configurations agree on admin.notify_on_error
    and admin.ids get the same answer and the same effects.  Switching
    storage off does not keep it from opening the database file. *)
Theorem table_exists_ignores_use_db (E : env) (self self' : TGBFPlugin) (table_name : value)
    (plugin db_name : option string) (w : world) :
  name self = name self' ->
  ConfigManager.get (global_config self) ["admin"; "notify_on_error"]
    = ConfigManager.get (global_config self') ["admin"; "notify_on_error"] ->
  ConfigManager.get (global_config self) ["admin"; "ids"]
    = ConfigManager.get (global_config self') ["admin"; "ids"] ->
  table_exists E self table_name plugin db_name w
  = table_exists E self' table_name plugin db_name w.
Proof.
  intros named flag ids.
  unfold table_exists, table_exists_db_path, resolve_db_name, _database_table_exists,
    get_global_resource, _get_resource_content, log_and_notify, notify.
  now rewrite named, flag, ids.
Qed.

Lemma table_exists_ignores_use_db_witness :
  let off := ConfigManager.New "config/config.json"
               (JObj [("admin", JObj [("ids", JList [JNum 134166731]);
                                      ("notify_on_error", JBool true)]);
                      ("database", JObj [("use_db", JBool false)])]) in
  let db_path := "tgbf/plugins/feedback/data/feedback.db" in
  let w := World {[db_path := File "SQLite format 3"]} [] in
  table_exists (calm []) (plugin_with "Feedback" [] off []) (JStr "feedback") None None w
  = table_exists (calm []) (plugin_with "Feedback" [] global_on []) (JStr "feedback") None None w
  /\ execute_sql (calm []) (plugin_with "Feedback" [] off []) (Some "SELECT 1") [] None None w
     = (Ok (Res (Some false) (JStr "Database disabled")), w)
  /\ In (EConnect db_path None)
        (trace (snd (table_exists (calm []) (plugin_with "Feedback" [] off [])
                       (JStr "feedback") None None w))).
Proof.
  intros off db_path w. split; [| split].
  - exact (table_exists_ignores_use_db (calm []) (plugin_with "Feedback" [] off [])
             (plugin_with "Feedback" [] global_on []) (JStr "feedback") None None w
             eq_refl eq_refl eq_refl).
  - reflexivity.
  - vm_compute. now left.
Defined.

(** X12. The answer of [table_exists]: when the database file exists
    ([Path(db_path).is_file()] is True), the connection opens, the probe statement is read from the global
    resource table_exists.sql and runs, the call returns True exactly
    when the statement yields a first row (with a column), records the
    connection, the statement with the table name as its only parameter,
    and the closing of the connection, and logs nothing. *)
Theorem table_exists_answer (E : env) (self : TGBFPlugin) (db_path statement : string)
    (table_name : value) (rows : list (list value)) (w : world) :
  let probe_path := path_join_all (cwd E) [DIR_RES (c E); "table_exists.sql"] in
  Path_is_file E db_path w = (Ok true, w) ->
  connect_fault E db_path = None ->
  os_fault E (OpenRead probe_path) = None ->
  fs w !! probe_path = Some (File statement) ->
  execute_result E db_path statement [table_name] = Ok rows ->
  fetch_fault E db_path = None ->
  _database_table_exists E self db_path table_name w
  = (Ok (has_row rows),
     World (fs w) (trace w ++ [EConnect db_path None;
                               EExecute db_path (Some statement) [table_name];
                               EConClose db_path])).
Proof.
  intros probe_path present opened allowed readable ran fetched.
  set (w1 := World (fs w) (trace w ++ [EConnect db_path None])).
  assert (loaded : get_global_resource E self "table_exists.sql" w1 = (Ok (Some statement), w1)).
  { unfold get_global_resource, _get_resource_content, try_except. fold probe_path.
    unfold mbind, M_bind, read_text. cbn [fs w1]. now rewrite allowed, readable. }
  assert (probed : probe E db_path (Some statement) table_name false w1
                   = (Ok (has_row rows),
                      World (fs w) (trace w1 ++ [EExecute db_path (Some statement) [table_name]]))).
  { unfold probe, cur_execute, cur_fetchone. rewrite ran, fetched.
    unfold mbind, M_bind, mret, M_ret, emit. cbn [fs w1].
    now destruct rows as [| [| x r] rest]. }
  unfold _database_table_exists.
  rewrite (bind_ok _ _ _ _ _ present). cbn [negb].
  unfold sqlite3_connect. rewrite opened.
  unfold mbind at 1, M_bind at 1, emit at 1. fold w1.
  rewrite (bind_ok _ _ _ _ _ loaded).
  unfold mbind at 1, M_bind at 1, try_except. rewrite probed.
  unfold mbind, M_bind, mret, M_ret, emit. cbn [fs trace w1].
  now rewrite <- !app_assoc.
Qed.

Lemma table_exists_answer_witness :
  let self := plugin_with "Feedback" [] global_on [] in
  let db_path := "tgbf/plugins/feedback/data/feedback.db" in
  let statement := "SELECT name FROM sqlite_master WHERE type = 'table' AND name = ?" in
  let w := World (<[db_path := File "SQLite format 3"]>
                    {["/srv/bot/resources/table_exists.sql" := File statement]}) [] in
  table_exists (calm [[JStr "feedback"]]) self (JStr "feedback") None None w
  = (Ok true, World (fs w) [EConnect db_path None;
                            EExecute db_path (Some statement) [JStr "feedback"];
                            EConClose db_path])
  /\ table_exists (calm []) self (JStr "feedback") None None w
  = (Ok false, World (fs w) [EConnect db_path None;
                             EExecute db_path (Some statement) [JStr "feedback"];
                             EConClose db_path]).
Proof.
  intros self db_path statement w. split.
  - exact (table_exists_answer (calm [[JStr "feedback"]]) self db_path statement
             (JStr "feedback") [[JStr "feedback"]] w
             eq_refl eq_refl eq_refl eq_refl eq_refl eq_refl).
  - exact (table_exists_answer (calm []) self db_path statement
             (JStr "feedback") [] w eq_refl eq_refl eq_refl eq_refl eq_refl eq_refl).
Defined.

(** X13. [execute_sql] and [table_exists] resolve the same file whenever
    no plugin is named or the plugin is named in lower case; so a plugin's
    own storage is checked and written at one path.  (With upper-case
    letters in the plugin argument only [execute_sql] lower-cases the
    directory.) *)
Theorem storage_paths_agree (E : env) (self : TGBFPlugin) (plugin db_name : option string) :
  given plugin = false \/ no_upper (text_of plugin) = true ->
  execute_sql_db_path E self plugin db_name = table_exists_db_path E self plugin db_name.
Proof.
  intros lower_case. unfold execute_sql_db_path, table_exists_db_path.
  destruct (given plugin) eqn:named; [| reflexivity].
  destruct lower_case as [? | lower_case]; [discriminate |].
  rewrite (lower_fixed _ lower_case).
  destruct plugin as [p |]; [reflexivity | discriminate].
Qed.

Lemma storage_paths_agree_witness :
  let self := plugin_with "Feedback" [] global_on [] in
  execute_sql_db_path (calm []) self (Some "usage") None
    = table_exists_db_path (calm []) self (Some "usage") None
  /\ execute_sql_db_path (calm []) self None None = "tgbf/plugins/feedback/data/feedback.db"
  /\ execute_sql_db_path (calm []) self (Some "Usage") None = "tgbf/plugins/usage/data/Usage.db"
  /\ table_exists_db_path (calm []) self (Some "Usage") None = "tgbf/plugins/Usage/data/Usage.db".
Proof.
  intros self. split.
  - apply (storage_paths_agree (calm []) self (Some "usage") None). now right.
  - repeat split.
Defined.

(** ** Construction, continued *)

Lemma made_dirs_id (t : gmap string node) (ps : list string) :
  (forall q, q ∈ ps -> t !! q = Some Dir) ->
  foldr (fun q t => <[q:=Dir]> t) t ps = t.
Proof.
  intros dirs. apply map_eq. intros q. rewrite lookup_made_dirs.
  destruct (decide (q ∈ ps)) as [member | _]; [symmetry; now apply dirs | reflexivity].
Qed.

(** Once [_init_plugin_cfg] has returned, the directory step is a no-op. *)
Lemma init_plugin_cfg_settled (E : env) (self_name : string) (w w1 : world)
    (cm : ConfigManager.t) :
  _init_plugin_cfg E self_name w = (Ok cm, w1) ->
  os_makedirs E (get_cfg_path E self_name None) w1 = (Ok tt, w1).
Proof.
  unfold _init_plugin_cfg.
  set (cfg_fold := get_cfg_path E self_name None).
  set (cfg_path := path_join cfg_fold (self_name +:+ ".json")).
  unfold mbind at 1, M_bind at 1.
  destruct (os_makedirs E cfg_fold w) as [[[] | e] wm] eqn:made; [| discriminate].
  assert (dirs : forall q, q ∈ ancestors cfg_fold ++ [cfg_fold] -> fs wm !! q = Some Dir).
  { intros q member. revert made. unfold os_makedirs.
    destruct (os_fault E (Makedirs cfg_fold)); [discriminate |].
    destruct (String.eqb cfg_fold ""); [discriminate |].
    destruct (existsb _ _); [discriminate |].
    destruct (is_file (fs w) cfg_fold); [discriminate |].
    intros [= <-]. cbn [fs]. rewrite lookup_made_dirs.
    now destruct (decide (q ∈ ancestors cfg_fold ++ [cfg_fold])). }
  assert (again : forall t : gmap string node,
            (forall q, q ∈ ancestors cfg_fold ++ [cfg_fold] -> t !! q = Some Dir) ->
            forall tr, os_makedirs E cfg_fold (World t tr) = (Ok tt, World t tr)).
  { intros t dirs' tr. revert made. unfold os_makedirs.
    destruct (os_fault E (Makedirs cfg_fold)); [discriminate |].
    destruct (String.eqb cfg_fold ""); [discriminate |]. intros _. cbn [fs trace].
    assert (free : forall q, q ∈ ancestors cfg_fold ++ [cfg_fold] -> is_file t q = false).
    { intros q member. unfold is_file. now rewrite (dirs' q member). }
    destruct (existsb (is_file t) (ancestors cfg_fold)) eqn:above.
    - apply existsb_exists in above as (q & member & file).
      rewrite free in file; [discriminate |].
      apply elem_of_app. left. now apply list_elem_of_In.
    - rewrite free by (apply elem_of_app; right; now apply list_elem_of_singleton).
      now rewrite (made_dirs_id t _ dirs'). }
  unfold mbind at 1, M_bind at 1. unfold mbind at 1, M_bind at 1.
  destruct (negb (is_file (fs wm) cfg_path)).
  - unfold write_text. destruct (os_fault E (OpenWrite cfg_path)); [discriminate |].
    destruct (is_dir (fs wm) cfg_path) eqn:blocked; [discriminate |].
    unfold ConfigManager_new. intros [= _ <-]. apply again.
    intros q member. cbn [fs]. rewrite lookup_insert_ne; [now apply dirs |].
    intros same. subst q. unfold is_dir in blocked. now rewrite (dirs _ member) in blocked.
  - unfold mret at 1, M_ret at 1, ConfigManager_new. intros [= _ <-].
    destruct wm as [t tr]. now apply again.
Qed.

Lemma init_plugin_cfg_again (E : env) (self_name : string) (w w1 : world)
    (cm : ConfigManager.t) :
  _init_plugin_cfg E self_name w = (Ok cm, w1) ->
  _init_plugin_cfg E self_name w1 = (Ok cm, w1).
Proof.
  intros built.
  pose proof (init_plugin_cfg_settled E _ _ _ _ built) as settled.
  pose proof (init_plugin_cfg_ok E _ _ _ _ built) as (file & doc & present & _).
  unfold _init_plugin_cfg. rewrite (bind_ok _ _ _ _ _ settled).
  unfold mbind at 1, M_bind at 1. rewrite present. cbn [negb].
  unfold mbind, M_bind, mret, M_ret, ConfigManager_new.
  destruct cm as [path' doc']. simpl in file, doc. now subst.
Qed.

(** X14. Construction can be repeated: once [__init__] has returned a
    plugin, running it again in the world it left returns the same plugin
    and changes nothing, so a configuration file that exists is never
    written a second time. *)
Theorem init_is_idempotent (E : env) (cls : string) (tg_bot : TelegramBot)
    (w w1 : world) (self : TGBFPlugin) :
  __init__ E cls tg_bot w = (Ok self, w1) ->
  __init__ E cls tg_bot w1 = (Ok self, w1).
Proof.
  intros built. pose proof built as first.
  apply init_ok in built as (named & class & global & built).
  apply init_plugin_cfg_again in built.
  unfold __init__. rewrite (bind_ok _ _ _ _ _ built).
  unfold mret, M_ret. f_equal. f_equal.
  destruct self as [cls' bot' name' global' cfg'].
  unfold name, global_config, config in *. simpl in *. subst.
  revert first. unfold __init__, mbind, M_bind.
  destruct (_init_plugin_cfg E (lower cls) w) as [[cfg | e] w2]; [| discriminate].
  now intros [= -> _ _].
Qed.

Lemma init_is_idempotent_witness :
  let tg_bot := Bot global_on [] in
  exists (self : TGBFPlugin) (w1 : world),
    __init__ (calm []) "About" tg_bot empty_world = (Ok self, w1)
    /\ __init__ (calm []) "About" tg_bot w1 = (Ok self, w1).
Proof.
  intros tg_bot. eexists _, _. split; [reflexivity |].
  exact (init_is_idempotent (calm []) "About" tg_bot empty_world _ _ eq_refl).
Defined.

(** ** The visibility filters *)

Lemma deny_returns (E : env) (update : Update) (text : string) (w : world) (cid : Z) :
  message update = Some cid ->
  deny E update text w
  = (Ok tt, match reply_fault E with
            | None => World (fs w) (trace w ++ [EReplyText (MsgText text)])
            | Some _ => w
            end).
Proof.
  intros present. unfold deny, try_except, reply_text. rewrite present.
  now destruct (reply_fault E).
Qed.

(** The three cases of the private filter. *)
Lemma private_cases (E : env) (T : telegram) (func : M value) (self : TGBFPlugin)
    (update : Update) (w : world) :
  (eq_False (ConfigManager.get (config self) ["private"]) = true ->
   private E T func self update w = func w)
  /\
  (forall (cid : Z) (type : string),
     eq_False (ConfigManager.get (config self) ["private"]) = false ->
     message update = Some cid ->
     chat_type T cid = Ok type ->
     (type = Chat_PRIVATE -> private E T func self update w = func w)
     /\ (type <> Chat_PRIVATE ->
         let bot := if given (bot_username T) then text_of (bot_username T) else bot_name T in
         let text := INFO T +:+ " Only allowed to execute in a private chat with @" +:+ bot in
         private E T func self update w
         = (Ok JNull, match reply_fault E with
                      | None => World (fs w) (trace w ++ [EReplyText (MsgText text)])
                      | Some _ => w
                      end))).
Proof.
  split.
  - intros off. unfold private. now rewrite off.
  - intros cid type on present looked. unfold private. rewrite on.
    assert (found : message_chat_id update w = (Ok cid, w))
      by (unfold message_chat_id; now rewrite present).
    assert (typed : lift (chat_type T cid) w = (Ok type, w))
      by (unfold lift; now rewrite looked).
    rewrite (bind_ok _ _ _ _ _ found), (bind_ok _ _ _ _ _ typed). split.
    + intros ->. now rewrite String.eqb_refl.
    + intros other. destruct (String.eqb_spec type Chat_PRIVATE); [contradiction |].
      cbv zeta. now rewrite (bind_ok _ _ _ _ _ (deny_returns E update _ w cid present)).
Qed.

(** X15. The private filter: with the plugin's private setting false the
    wrapped handler is the handler itself.  Otherwise, for an update with
    a message whose chat type is looked up: in a private chat the wrapped
    handler is the handler itself; in any other chat the handler does not
    run, one denial is replied, and None is returned; when the reply
    itself fails the failure is dropped and the world stays as it was. *)
Theorem private_filter (E : env) (T : telegram) (func : M value) (self : TGBFPlugin)
    (update : Update) (w : world) :
  (eq_False (ConfigManager.get (config self) ["private"]) = true ->
   private E T func self update w = func w)
  /\
  (forall (cid : Z) (type : string),
     eq_False (ConfigManager.get (config self) ["private"]) = false ->
     message update = Some cid ->
     chat_type T cid = Ok type ->
     (type = Chat_PRIVATE -> private E T func self update w = func w)
     /\ (type <> Chat_PRIVATE ->
         let bot := if given (bot_username T) then text_of (bot_username T) else bot_name T in
         let text := INFO T +:+ " Only allowed to execute in a private chat with @" +:+ bot in
         private E T func self update w
         = (Ok JNull, match reply_fault E with
                      | None => World (fs w) (trace w ++ [EReplyText (MsgText text)])
                      | Some _ => w
                      end))).
Proof. exact (private_cases E T func self update w). Qed.

Lemma private_filter_witness :
  let T := Telegram "(i)" (fun _ => Ok "supergroup") (Some "tgbf_bot") "TGBF" in
  let weather := plugin_with "Weather" [] global_on [] in
  private (calm []) T (replying "sunny") weather (Upd (Some 7%Z) (Some (-1001)%Z)) empty_world
  = (Ok JNull,
     World ∅ [EReplyText (MsgText "(i) Only allowed to execute in a private chat with @tgbf_bot")]).
Proof.
  intros T weather.
  refine (proj2 (proj2 (private_filter (calm []) T (replying "sunny") weather
                          (Upd (Some 7%Z) (Some (-1001)%Z)) empty_world)
                   (-1001)%Z "supergroup" eq_refl eq_refl eq_refl) _).
  discriminate.
Defined.

(** The three cases of the public filter. *)
Lemma public_cases (E : env) (T : telegram) (func : M value) (self : TGBFPlugin)
    (update : Update) (w : world) :
  (eq_False (ConfigManager.get (config self) ["public"]) = true ->
   public E T func self update w = func w)
  /\
  (forall (cid : Z) (type : string),
     eq_False (ConfigManager.get (config self) ["public"]) = false ->
     message update = Some cid ->
     chat_type T cid = Ok type ->
     (type <> Chat_PRIVATE -> public E T func self update w = func w)
     /\ (type = Chat_PRIVATE ->
         let text := INFO T +:+ " Only allowed to execute in a public chat" in
         public E T func self update w
         = (Ok JNull, match reply_fault E with
                      | None => World (fs w) (trace w ++ [EReplyText (MsgText text)])
                      | Some _ => w
                      end))).
Proof.
  split.
  - intros off. unfold public. now rewrite off.
  - intros cid type on present looked. unfold public. rewrite on.
    assert (found : message_chat_id update w = (Ok cid, w))
      by (unfold message_chat_id; now rewrite present).
    assert (typed : lift (chat_type T cid) w = (Ok type, w))
      by (unfold lift; now rewrite looked).
    rewrite (bind_ok _ _ _ _ _ found), (bind_ok _ _ _ _ _ typed). split.
    + intros other. now destruct (String.eqb_spec type Chat_PRIVATE).
    + intros ->. rewrite String.eqb_refl. cbn [negb]. cbv zeta.
      now rewrite (bind_ok _ _ _ _ _ (deny_returns E update _ w cid present)).
Qed.

(** X16. The public filter mirrors it: with the public setting false the
    wrapped handler is the handler itself; otherwise, for an update with a
    message whose chat type is looked up, the handler runs in every chat
    that is not private, and in a private chat it does not run, one
    denial is replied (a failure of the reply being dropped) and None is
    returned. *)
Theorem public_filter (E : env) (T : telegram) (func : M value) (self : TGBFPlugin)
    (update : Update) (w : world) :
  (eq_False (ConfigManager.get (config self) ["public"]) = true ->
   public E T func self update w = func w)
  /\
  (forall (cid : Z) (type : string),
     eq_False (ConfigManager.get (config self) ["public"]) = false ->
     message update = Some cid ->
     chat_type T cid = Ok type ->
     (type <> Chat_PRIVATE -> public E T func self update w = func w)
     /\ (type = Chat_PRIVATE ->
         let text := INFO T +:+ " Only allowed to execute in a public chat" in
         public E T func self update w
         = (Ok JNull, match reply_fault E with
                      | None => World (fs w) (trace w ++ [EReplyText (MsgText text)])
                      | Some _ => w
                      end))).
Proof. exact (public_cases E T func self update w). Qed.

Lemma public_filter_witness :
  let T := Telegram "(i)" (fun _ => Ok "private") (Some "tgbf_bot") "TGBF" in
  let weather := plugin_with "Weather" [] global_on [] in
  public (calm []) T (replying "sunny") weather (Upd (Some 7%Z) (Some 7%Z)) empty_world
  = (Ok JNull, World ∅ [EReplyText (MsgText "(i) Only allowed to execute in a public chat")]).
Proof.
  intros T weather.
  exact (proj2 (proj2 (public_filter (calm []) T (replying "sunny") weather
                         (Upd (Some 7%Z) (Some 7%Z)) empty_world)
                  7%Z "private" eq_refl eq_refl eq_refl) eq_refl).
Defined.



(** ** The usage plugin *)



(** ** start.py *)

(** X19. [_get_data] of start.py.  When the file plugins/bet/data/bet.db
    next to start.py does not exist, it returns the error object and
    opens no connection.  Otherwise every statement it runs has a text
    fixed by the table alone: a key that counts as true travels as the
    only parameter of SELECT * FROM <table> WHERE <column> = ? (column
    bet_address for the table bets, address otherwise), and is never
    part of the text; a key that counts as false selects the whole table
    with no parameter. *)
Theorem get_data_statements (E : env) (S : TGBF.startup) (table : string) (key : value)
    (w : world) :
  let path := path_join_all (TGBF.here S) ["plugins"; "bet"; "data"; "bet.db"] in
  let column := if String.eqb table "bets" then "bet_address" else "address" in
  (is_file (fs w) path = false ->
   TGBF._get_data E S table key w
   = (Ok (JObj [("error", JStr ("File doesn't exist: " +:+ path))]), w))
  /\
  (forall (o : outcome value) (w' : world),
     TGBF._get_data E S table key w = (o, w') ->
     exists evs : list event,
       trace w' = trace w ++ evs
       /\ forall db sql args,
            In (EExecute db sql args) evs ->
            db = path
            /\ ((truthy key = true
                 /\ sql = Some ("SELECT * FROM " +:+ table +:+ " WHERE " +:+ column +:+ " = ?")
                 /\ args = [key])
                \/ (truthy key = false
                    /\ sql = Some ("SELECT * FROM " +:+ table) /\ args = []))).
Proof.
  intros path column. split.
  - intros missing. unfold TGBF._get_data. fold path.
    unfold mbind at 1, M_bind at 1. now rewrite missing.
  - intros o w'. unfold TGBF._get_data. fold path. fold column.
    unfold mbind at 1, M_bind at 1.
    destruct (is_file (fs w) path); cbn [negb];
      [| intros [= <- <-]; exists []; split; [now rewrite app_nil_r | intros ? ? ? []]].
    unfold sqlite3_connect, cur_execute, con_commit, cur_fetchall.
    unfold mbind, M_bind, raise, emit, mret, M_ret.
    destruct (connect_fault E path);
      [intros [= <- <-]; exists []; split; [now rewrite app_nil_r | intros ? ? ? []] |].
    destruct (truthy key) eqn:keyed;
      (destruct (execute_result E path _ _); cbn [fs trace];
       [destruct (commit_fault E path); cbn [fs trace];
        [| destruct (fetch_fault E path); cbn [fs trace]] |]);
      intros [= <- <-]; cbn [trace]; rewrite <- ?app_assoc; eexists;
      (split; [reflexivity |]);
      intros db sql args member; simpl in member;
      repeat (destruct member as [same | member];
              [first [discriminate same
                     | injection same as <- <- <-;
                       split; [reflexivity |];
                       ((left; now repeat split) || (right; now repeat split))] |]);
      now destruct member.
Qed.

Lemma get_data_statements_witness :
  let S := TGBF.Startup "/srv/bot/tgbf" false None (Ok "") "token.json" in
  let path := "/srv/bot/tgbf/plugins/bet/data/bet.db" in
  let key := JStr "x' OR '1'='1" in
  let w := World {[path := File "SQLite format 3"]} [] in
  TGBF._get_bet (calm []) S key empty_world
    = (Ok (JObj [("error", JStr "File doesn't exist: /srv/bot/tgbf/plugins/bet/data/bet.db")]),
       empty_world)
  /\ exists evs : list event,
       trace (snd (TGBF._get_bet (calm []) S key w)) = trace w ++ evs
       /\ forall db sql args,
            In (EExecute db sql args) evs ->
            db = path
            /\ ((truthy key = true
                 /\ sql = Some "SELECT * FROM bets WHERE bet_address = ?" /\ args = [key])
                \/ (truthy key = false /\ sql = Some "SELECT * FROM bets" /\ args = [])).
Proof.
  intros S path key w. split.
  - apply (proj1 (get_data_statements (calm []) S "bets" key empty_world)). reflexivity.
  - apply (proj2 (get_data_statements (calm []) S "bets" key w)
             (fst (TGBF._get_bet (calm []) S key w))). reflexivity.
Defined.

(** X20. Where the bot token comes from.  With -input-tkn it is the line
    typed at the prompt, and with -tkn (and no -input-tkn) the argument,
    the token file not being looked at.  With neither, a value is
    returned only if the token file exists and holds an object with the
    key telegram, and it is the value at that key; a missing file ends the
    process (SystemExit), and so does a file whose object lacks the key,
    after the KeyError was logged. *)
Theorem bot_token_sources (E : env) (S : TGBF.startup) (w : world) :
  let token_path := path_join (DIR_CFG (c E)) (TGBF.FILE_TKN S) in
  (forall line, TGBF.input_token S = true -> TGBF.input S = Ok line ->
     TGBF._get_bot_token E S w = (Ok (JStr line), w))
  /\ (TGBF.input_token S = false -> given (TGBF.token S) = true ->
      TGBF._get_bot_token E S w = (Ok (JStr (text_of (TGBF.token S))), w))
  /\ (forall (v : value) (w' : world),
        TGBF.input_token S = false -> given (TGBF.token S) = false ->
        TGBF._get_bot_token E S w = (Ok v, w') ->
        w' = w
        /\ exists content kv,
             fs w !! token_path = Some (File content)
             /\ json_load E content = Some (JObj kv)
             /\ assoc "telegram" kv = Some v)
  /\ (TGBF.input_token S = false -> given (TGBF.token S) = false ->
      is_file (fs w) token_path = false ->
      TGBF._get_bot_token E S w
      = (Raise (Exn "SystemExit"
                  ("ERROR: No token file '" +:+ TGBF.FILE_TKN S +:+ "' found at '"
                   +:+ token_path +:+ "'")), w))
  /\ (forall content kv,
        TGBF.input_token S = false -> given (TGBF.token S) = false ->
        os_fault E (OpenRead token_path) = None ->
        fs w !! token_path = Some (File content) ->
        json_load E content = Some (JObj kv) ->
        assoc "telegram" kv = None ->
        TGBF._get_bot_token E S w
        = (Raise (Exn "SystemExit" "ERROR: Can't read bot token"),
           World (fs w) (trace w ++ [ELogError (MsgText "KeyError('telegram') - Class: TGBF")]))).
Proof.
  intros token_path. unfold TGBF._get_bot_token. fold token_path.
  split; [| split; [| split; [| split]]].
  - intros line console typed. rewrite console, typed. reflexivity.
  - intros no_console named. now rewrite no_console, named.
  - intros v w' no_console unnamed. rewrite no_console, unnamed.
    unfold TGBF.try_except_KeyError. unfold mbind at 1, M_bind at 1.
    unfold is_file. destruct (fs w !! token_path) as [[content |] |] eqn:present;
      try (unfold TGBF.exit, raise; simpl; discriminate).
    unfold mbind, M_bind, read_text.
    destruct (os_fault E (OpenRead token_path)) as [e |].
    { destruct (String.eqb (exn_kind e) "KeyError"); [| discriminate].
      unfold logging_error, emit, TGBF.exit, raise. discriminate. }
    rewrite present. unfold TGBF.json_load_text. destruct (json_load E content) as [doc |] eqn:parsed;
      [| unfold raise; simpl; discriminate].
    unfold mret, M_ret, lift, TGBF.getitem.
    destruct doc as [| b | n | s | l | kv]; simpl; try discriminate.
    destruct (assoc "telegram" kv) as [x |] eqn:held; simpl; [| discriminate].
    intros [= <- <-]. split; [reflexivity |]. now exists content, kv.
  - intros no_console unnamed missing. rewrite no_console, unnamed.
    unfold TGBF.try_except_KeyError. unfold mbind at 1, M_bind at 1.
    now rewrite missing.
  - intros content kv no_console unnamed allowed present parsed absent.
    rewrite no_console, unnamed.
    unfold TGBF.try_except_KeyError. unfold mbind at 1, M_bind at 1.
    unfold is_file. rewrite present.
    unfold mbind, M_bind, read_text. rewrite allowed, present.
    unfold TGBF.json_load_text. rewrite parsed.
    unfold mret, M_ret, lift, TGBF.getitem. now rewrite absent.
Qed.

Lemma bot_token_sources_witness :
  let S := TGBF.Startup "/srv/bot/tgbf" false None (Ok "") "token.json" in
  let E := Env layout "/srv/bot" (fun _ => None) (fun _ => Some (JObj [("telegrm", JStr "123:abc")]))
               (fun _ => None) (fun _ _ _ => Ok []) (fun _ => None) (fun _ => None)
               (fun _ => None) None in
  let w := World {["config/token.json" := File "{ telegrm: 123:abc }"]} [] in
  TGBF._get_bot_token E S w
  = (Raise (Exn "SystemExit" "ERROR: Can't read bot token"),
     World (fs w) [ELogError (MsgText "KeyError('telegram') - Class: TGBF")])
  /\ TGBF._get_bot_token E (TGBF.Startup "/srv/bot/tgbf" false (Some "42:xyz") (Ok "") "token.json") w
     = (Ok (JStr "42:xyz"), w).
Proof.
  intros S E w. split.
  - exact (proj2 (proj2 (proj2 (proj2 (bot_token_sources E S w))))
             "{ telegrm: 123:abc }" [("telegrm", JStr "123:abc")]
             eq_refl eq_refl eq_refl eq_refl eq_refl eq_refl).
  - exact (proj1 (proj2 (bot_token_sources E
             (TGBF.Startup "/srv/bot/tgbf" false (Some "42:xyz") (Ok "") "token.json") w))
             eq_refl eq_refl).
Defined.

(** ** Handlers, endpoints and jobs *)

(** X21. Endpoints are tracked under paths that begin with a slash, and
    [add_endpoint] keeps it so: a name without a leading slash gets one, so
    that registering x and registering /x are the same call.  After a
    registration that is not refused the endpoint is found under the
    normalised name and no other entry has changed; a refused
    registration changes nothing. *)
Theorem add_endpoint_normalises (V : services) (self : TGBFPlugin) (name_ endpoint : string)
    (r r' : runtime) (o : outcome unit) :
  let path := if startswith name_ "/" then name_ else "/" +:+ name_ in
  slashed r ->
  add_endpoint V self name_ endpoint r = (o, r') ->
  slashed r'
  /\ startswith path "/" = true
  /\ add_endpoint V self path endpoint r = (o, r')
  /\ (o = Ok tt ->
      _endpoints r' !! path = Some endpoint
      /\ forall k, k <> path -> _endpoints r' !! k = _endpoints r !! k)
  /\ (o <> Ok tt -> r' = r).
Proof.
  intros path kept. 
  assert (leading : startswith path "/" = true).
  { subst path. destruct (startswith name_ "/") eqn:has; [exact has |].
    unfold startswith. simpl. now destruct name_. }
  unfold add_endpoint. fold path. rewrite leading.
  destruct (add_url_rule_fault V path) as [e |]; intros [= <- <-].
  - split; [exact kept |]. split; [reflexivity |]. split; [reflexivity |].
    split; [discriminate | reflexivity].
  - split; [| split; [reflexivity | split; [reflexivity | split]]].
    + intros k e. cbn [_endpoints]. rewrite lookup_insert.
      destruct (decide (path = k)) as [<- | _]; [now intros _ | apply kept].
    + intros _. cbn [_endpoints]. split; [apply lookup_insert_eq |].
      intros k other. now rewrite lookup_insert_ne.
    + intros bad. now contradiction bad.
Qed.

Lemma add_endpoint_normalises_witness :
  let V := Services (fun _ _ => None) (fun _ => None) (fun _ _ => None) 0 in
  let self := plugin_with "About" [] global_on [] in
  let r := Runtime [] [] [] [] ∅ [] in
  exists r' : runtime,
    add_endpoint V self "status" "status_view" r = (Ok tt, r')
    /\ add_endpoint V self "/status" "status_view" r = (Ok tt, r')
    /\ _endpoints r' !! "/status" = Some "status_view"
    /\ _endpoints r' !! "status" = None.
Proof.
  intros V self r. eexists.
  destruct (add_endpoint_normalises V self "status" "status_view" r _ _
              ltac:(intros k e; cbn; rewrite lookup_empty; discriminate) eq_refl)
    as (_ & _ & same & found & _).
  split; [reflexivity |]. split; [exact same |].
  split; [exact (proj1 (found eq_refl)) |].
  rewrite (proj2 (found eq_refl)); [reflexivity | discriminate].
Defined.

(** X22. Every handler a plugin tracks is registered with the
    dispatcher, and [add_handler] keeps it so: the dispatcher is asked
    first, a handler it takes is appended to the plugin's list (which
    therefore is in registration order), and a handler it refuses is not
    tracked. *)
Theorem add_handler_tracks_registered (V : services) (self : TGBFPlugin) (handler : Handler)
    (group : Z) (r r' : runtime) (o : outcome unit) :
  tracked_registered r ->
  add_handler V self handler group r = (o, r') ->
  tracked_registered r'
  /\ (o = Ok tt ->
      _handlers r' = _handlers r ++ [handler]
      /\ dispatcher r' = dispatcher r ++ [(group, handler)])
  /\ (o <> Ok tt -> r' = r).
Proof.
  intros kept. unfold add_handler.
  destruct (add_handler_fault V handler group) as [e |]; intros [= <- <-].
  - split; [exact kept |]. split; [discriminate | reflexivity].
  - split; [| split; [now intros | intros bad; now contradiction bad]].
    intros h member. cbn [_handlers dispatcher] in *.
    apply in_app_or in member as [member | [<- | []]].
    + destruct (kept h member) as (g & registered). exists g.
      apply in_or_app. now left.
    + exists group. apply in_or_app. right. now left.
Qed.

Lemma add_handler_tracks_registered_witness :
  let V := Services (fun h _ => if String.eqb (handler_type h) "str"
                                then Some (Exn "TypeError" "handler is not an instance of Handler")
                                else None)
                    (fun _ => None) (fun _ _ => None) 0 in
  let self := plugin_with "Usage" [] global_on [] in
  let r := Runtime [] [] [] [] ∅ [] in
  let h := {| handler_type := "MessageHandler"; handler_key := 1 |} in
  exists r' : runtime,
    add_handler V self h 1 r = (Ok tt, r')
    /\ _handlers r' = [h]
    /\ dispatcher r' = [(1%Z, h)]
    /\ tracked_registered r'.
Proof.
  intros V self r h. eexists.
  destruct (add_handler_tracks_registered V self h 1 r _ _ ltac:(intros ? []) eq_refl)
    as (kept & added & _).
  split; [reflexivity |].
  split; [exact (proj1 (added eq_refl)) |].
  split; [exact (proj2 (added eq_refl)) | exact kept].
Defined.

(** X23. Jobs scheduled without a name (None or the empty string) are
    queued under the plugin's name.  As long as the queue lists the jobs
    that were scheduled (each once, in whatever order it keeps them),
    after [run_once] and [run_repeating] without names [get_jobs] with
    the plugin's name returns the jobs it returned before and the two new
    jobs, and [get_jobs] without a name returns those of the whole queue
    and the two new jobs; jobs under another name are the same as
    before.  Job names are not unique. *)
Theorem unnamed_jobs_take_plugin_name (Q : JobQueue) (self : TGBFPlugin) (cb1 cb2 : string)
    (when interval first : Z) (ctx1 ctx2 n1 n2 : option string) (r : runtime) :
  (forall jobs, listing Q jobs ≡ₚ jobs) ->
  given n1 = false ->
  given n2 = false ->
  let j1 := fst (run_once self cb1 when ctx1 n1 r) in
  let r1 := snd (run_once self cb1 when ctx1 n1 r) in
  let j2 := fst (run_repeating self cb2 interval first ctx2 n2 r1) in
  let r2 := snd (run_repeating self cb2 interval first ctx2 n2 r1) in
  j1 = NewJob cb1 (Once when) ctx1 (name self)
  /\ j2 = NewJob cb2 (Repeating interval first) ctx2 (name self)
  /\ get_jobs Q (Some (name self)) r2 ≡ₚ get_jobs Q (Some (name self)) r ++ [j1; j2]
  /\ get_jobs Q None r2 ≡ₚ get_jobs Q None r ++ [j1; j2]
  /\ (forall other : string,
        other <> "" -> other <> name self ->
        get_jobs Q (Some other) r2 ≡ₚ get_jobs Q (Some other) r).
Proof.
  intros lists unnamed1 unnamed2. unfold run_once, run_repeating, enqueue.
  rewrite unnamed1, unnamed2. cbn [fst snd job_queue job_name].
  split; [reflexivity |]. split; [reflexivity |].
  rewrite <- app_assoc. cbn [app].
  assert (all : listing Q (job_queue r ++ [NewJob cb1 (Once when) ctx1 (name self);
                                           NewJob cb2 (Repeating interval first) ctx2
                                                  (name self)])
                ≡ₚ listing Q (job_queue r) ++ [NewJob cb1 (Once when) ctx1 (name self);
                                              NewJob cb2 (Repeating interval first) ctx2
                                                     (name self)]).
  { now rewrite !lists. }
  split; [| split].
  - unfold get_jobs. cbn [job_queue]. destruct (given (Some (name self))); [| exact all].
    rewrite all, filter_app. cbn [text_of].
    rewrite filter_cons_True by reflexivity.
    now rewrite filter_cons_True by reflexivity.
  - unfold get_jobs. cbn [given job_queue]. exact all.
  - intros other named differs. unfold get_jobs. cbn [job_queue text_of].
    assert (given (Some other) = true) as ->.
    { unfold given. destruct (String.eqb_spec other ""); [contradiction | reflexivity]. }
    rewrite all, filter_app.
    rewrite filter_cons_False by (cbn [job_name]; congruence).
    rewrite filter_cons_False by (cbn [job_name]; congruence).
    now rewrite filter_nil, app_nil_r.
Qed.

Lemma unnamed_jobs_take_plugin_name_witness :
  let self := plugin_with "Stats" [] global_on [] in
  let other := NewJob "poll" (Repeating 60 30) None "weather" in
  let report := NewJob "report" (Once 3600) None "stats" in
  let collect := NewJob "collect" (Repeating 60 0) None "stats" in
  let r := Runtime [] [] [other] [] ∅ [] in
  let r1 := snd (run_once self "report" 3600 None None r) in
  let r2 := snd (run_repeating self "collect" 60 0 None (Some "") r1) in
  get_jobs by_next_run (Some "stats") r2 ≡ₚ [report; collect]
  /\ get_jobs by_next_run None r2 ≡ₚ [other; report; collect]
  /\ get_jobs by_next_run (Some "stats") r2 = [collect; report]
  /\ get_jobs as_scheduled (Some "stats") r2 = [report; collect].
Proof.
  intros self other report collect r r1 r2.
  destruct (unnamed_jobs_take_plugin_name by_next_run self "report" "collect" 3600 60 0
              None None None (Some "") r (merge_sort_Permutation sooner) eq_refl eq_refl)
    as (_ & _ & by_name & all & _).
  split; [exact by_name |]. split; [exact all |]. split; reflexivity.
Defined.

(** ** Removing a message later *)

Lemma split_on_free (sep : ascii) (s : string) :
  free_of sep s = true -> split_on sep s = [s].
Proof.
  induction s as [| a s IH]; simpl; [reflexivity |].
  intros free. apply andb_prop in free as [differs free].
  apply negb_true_iff in differs. rewrite differs. now rewrite (IH free).
Qed.

Lemma split_on_joined (sep : ascii) (a b : string) :
  free_of sep a = true ->
  split_on sep (a +:+ String sep b) = a :: split_on sep b.
Proof.
  induction a as [| x a IH]; simpl.
  - intros _. now rewrite Ascii.eqb_refl.
  - intros free. apply andb_prop in free as [differs free].
    apply negb_true_iff in differs. rewrite differs. now rewrite (IH free).
Qed.

Lemma digits_free (u : Decimal.uint) : free_of "_" (NilEmpty.string_of_uint u) = true.
Proof. induction u; simpl; auto. Qed.

Lemma str_int_free (n : Z) : free_of "_" (str_int n) = true.
Proof.
  unfold str_int, NilZero.string_of_int, NilZero.string_of_uint.
  destruct (Z.to_int n) as [u | u]; destruct u; simpl; auto using digits_free.
Qed.

(** X24. [remove_msg] and the job it schedules.  The removal is scheduled
    exactly when the flag for the kind of chat is set ([private] in a
    private chat, [public] elsewhere); otherwise nothing changes.  The
    job is queued under the plugin's name for [after_secs] seconds from
    now, and its context reads back as the chat and the message it was
    made from: when the job runs, it asks for the deletion of that message
    in that chat, and a refused deletion is logged, not raised. *)
Theorem remove_msg_round_trip (T : telegram) (V : services) (self : TGBFPlugin)
    (message : Message) (after_secs : Z) (private_ public_ : bool) (r : runtime)
    (type : string) :
  chat_type T (chat_id message) = Ok type ->
  let wanted := if String.eqb type Chat_PRIVATE then private_ else public_ in
  let job := NewJob "remove_msg_job" (Once (utcnow V + after_secs))
               (Some (str_int (chat_id message) +:+ "_" +:+ str_int (message_id message)))
               (name self) in
  (wanted = false -> remove_msg T V self message after_secs private_ public_ r = (Ok tt, r))
  /\ (wanted = true ->
      remove_msg T V self message after_secs private_ public_ r
      = (Ok tt, Runtime (dispatcher r) (url_rules r) (job_queue r ++ [job])
                        (_handlers r) (_endpoints r) (notes r)))
  /\ (forall r2 : runtime,
        remove_msg_job V job r2
        = (Ok tt,
           Runtime (dispatcher r2) (url_rules r2) (job_queue r2) (_handlers r2) (_endpoints r2)
             (notes r2 ++
              [match delete_fault V (str_int (chat_id message)) (str_int (message_id message)) with
               | None => NDelete (str_int (chat_id message)) (str_int (message_id message))
               | Some e => NError ("Not possible to remove message: " +:+ str_exn e)
               end]))).
Proof.
  intros looked wanted job. split; [| split].
  - subst wanted. intros unwanted. unfold remove_msg. rewrite looked.
    destruct (String.eqb type Chat_PRIVATE); cbn [negb andb orb];
      rewrite ?orb_false_r; now rewrite unwanted.
  - subst wanted. intros scheduled. unfold remove_msg. rewrite looked.
    destruct (String.eqb type Chat_PRIVATE); cbn [negb andb orb];
      rewrite ?orb_false_r; now rewrite scheduled.
  - intros r2. unfold remove_msg_job. subst job. cbn [job_context].
    change (str_int (chat_id message) +:+ "_" +:+ str_int (message_id message))
      with (str_int (chat_id message) +:+ String "_" (str_int (message_id message))).
    rewrite (split_on_joined _ _ _ (str_int_free (chat_id message))).
    rewrite (split_on_free _ _ (str_int_free (message_id message))).
    unfold index. cbn [lookup list_lookup].
    now destruct (delete_fault V _ _).
Qed.

Lemma remove_msg_round_trip_witness :
  let T := Telegram "(i)" (fun _ => Ok "supergroup") (Some "tgbf_bot") "TGBF" in
  let V := Services (fun _ _ => None) (fun _ => None) (fun _ _ => None) 1000 in
  let self := plugin_with "Feedback" [] global_on [] in
  let message := {| chat_id := -1001234; message_id := 55 |} in
  let r := Runtime [] [] [] [] ∅ [] in
  let job := NewJob "remove_msg_job" (Once 1010) (Some "-1001234_55") "feedback" in
  remove_msg T V self message 10 false true r = (Ok tt, Runtime [] [] [job] [] ∅ [])
  /\ remove_msg_job V job r = (Ok tt, Runtime [] [] [] [] ∅ [NDelete "-1001234" "55"])
  /\ remove_msg T V self message 10 true false r = (Ok tt, r).
Proof.
  intros T V self message r job.
  destruct (remove_msg_round_trip T V self message 10 false true r "supergroup" eq_refl)
    as (_ & scheduled & runs).
  destruct (remove_msg_round_trip T V self message 10 true false r "supergroup" eq_refl)
    as (skipped & _).
  split; [exact (scheduled eq_refl) |]. split; [exact (runs r) | exact (skipped eq_refl)].
Defined.

(** X25. [remove_msg_job] needs a context of two parts: run on a job whose
    context has no underscore (a job scheduled without context has the
    context None), it raises IndexError and asks for no deletion. *)
Theorem remove_msg_job_needs_two_parts (V : services) (job : Job) (r : runtime) :
  free_of "_" (match job_context job with Some s => s | None => "None" end) = true ->
  remove_msg_job V job r = (Raise (Exn "IndexError" "list index out of range"), r).
Proof.
  intros free. unfold remove_msg_job. now rewrite (split_on_free _ _ free).
Qed.

Lemma remove_msg_job_needs_two_parts_witness :
  let V := Services (fun _ _ => None) (fun _ => None) (fun _ _ => None) 1000 in
  let r := Runtime [] [] [] [] ∅ [] in
  remove_msg_job V (NewJob "remove_msg_job" (Once 1010) None "feedback") r
  = (Raise (Exn "IndexError" "list index out of range"), r).
Proof.
  intros V r.
  exact (remove_msg_job_needs_two_parts V (NewJob "remove_msg_job" (Once 1010) None "feedback")
           r eq_refl).
Defined.
